(** * gotify-ntfy-adapter: a shallow embedding of [app.py]

    The adapter exposes a Gotify-shaped [POST /message] endpoint and
    re-publishes every accepted message to an ntfy server.  This file
    embeds the helpers and the request handler of [app.py] as Rocq
    functions and proves the properties of its specification.

    Conventions.
    - A Python [str] is a list of Unicode code points ([pystr]); [py]
      turns an ASCII literal into such a list.
    - [bytes] are lists of [Byte.byte].
    - Python [dict]s are [gmap]s.
    - A Python call that may raise returns a [result]: [Ok v] or
      [Raise e].
    - The single I/O action, [requests.post], is an oracle [ntfy] from
      the outbound call to its outcome; the handler returns the list of
      the outbound calls it made next to its own outcome. *)

From Stdlib Require Import ZArith NArith List String Ascii Strings.Byte Bool Lia.
From Stdlib Require Import Numbers.DecimalString Numbers.DecimalPos.
From Stdlib Require Import Floats.SpecFloat.
From stdpp Require Import base option list gmap strings.

Local Open Scope Z_scope.

(** ** Python strings *)

Definition codepoint := N.
Definition pystr := list codepoint.

(** An ASCII literal of the source as a Python [str]. *)
Definition py (s : string) : pystr :=
  map N_of_ascii (list_ascii_of_string s).

(** [Py_UNICODE_ISSPACE]: the characters [str.strip] removes and that
    [int] accepts around a number. *)
Definition Py_UNICODE_ISSPACE (c : codepoint) : bool :=
  ((9 <=? c) && (c <=? 13) || (28 <=? c) && (c <=? 32)
   || (c =? 133) || (c =? 160) || (c =? 5760)
   || (8192 <=? c) && (c <=? 8202)
   || (c =? 8232) || (c =? 8233) || (c =? 8239) || (c =? 8287)
   || (c =? 12288))%N.

(** [Py_ISSPACE] of [pyctype.h]: the C-locale white space. *)
Definition Py_ISSPACE (c : codepoint) : bool :=
  ((9 <=? c) && (c <=? 13) || (c =? 32))%N.

(** First code point of every run of ten decimal digits (general
    category Nd, Unicode 14.0, the tables of CPython 3.11); the
    mathematical digits at U+1D7CE are five consecutive runs. *)
Definition decimal_zeros : list codepoint :=
  [0x30; 0x660; 0x6f0; 0x7c0; 0x966; 0x9e6; 0xa66; 0xae6; 0xb66; 0xbe6;
   0xc66; 0xce6; 0xd66; 0xde6; 0xe50; 0xed0; 0xf20; 0x1040; 0x1090;
   0x17e0; 0x1810; 0x1946; 0x19d0; 0x1a80; 0x1a90; 0x1b50; 0x1bb0;
   0x1c40; 0x1c50; 0xa620; 0xa8d0; 0xa900; 0xa9d0; 0xa9f0; 0xaa50;
   0xabf0; 0xff10; 0x104a0; 0x10d30; 0x11066; 0x110f0; 0x11136;
   0x111d0; 0x112f0; 0x11450; 0x114d0; 0x11650; 0x116c0; 0x11730;
   0x118e0; 0x11950; 0x11c50; 0x11d50; 0x11da0; 0x16a60; 0x16ac0;
   0x16b50; 0x1d7ce; 0x1d7d8; 0x1d7e2; 0x1d7ec; 0x1d7f6; 0x1e140;
   0x1e2f0; 0x1e950; 0x1fbf0]%N.

(** Characters with Numeric_Type=Digit that are no decimal digits
    (superscripts, circled digits, ...), as inclusive ranges. *)
Definition other_digits : list (codepoint * codepoint) :=
  [(0xb2, 0xb3); (0xb9, 0xb9); (0x1369, 0x1371); (0x19da, 0x19da);
   (0x2070, 0x2070); (0x2074, 0x2079); (0x2080, 0x2089);
   (0x2460, 0x2468); (0x2474, 0x247c); (0x2488, 0x2490);
   (0x24ea, 0x24ea); (0x24f5, 0x24fd); (0x24ff, 0x24ff);
   (0x2776, 0x277e); (0x2780, 0x2788); (0x278a, 0x2792);
   (0x10a40, 0x10a43); (0x10e60, 0x10e68); (0x11052, 0x1105a);
   (0x1f100, 0x1f10a)]%N.

(** [Py_UNICODE_TODECIMAL]: the value of a decimal digit. *)
Fixpoint decimal_in (zeros : list codepoint) (c : codepoint) : option N :=
  match zeros with
  | [] => None
  | z :: zs => if ((z <=? c) && (c <? z + 10))%N then Some (c - z)%N
               else decimal_in zs c
  end.

Definition Py_UNICODE_TODECIMAL (c : codepoint) : option N :=
  decimal_in decimal_zeros c.

Definition Py_UNICODE_ISDIGIT (c : codepoint) : bool :=
  match Py_UNICODE_TODECIMAL c with
  | Some _ => true
  | None => existsb (fun r => (fst r <=? c) && (c <=? snd r))%N other_digits
  end.

(** [str.isdigit()]: at least one character, all of them digits. *)
Definition isdigit (s : pystr) : bool :=
  match s with
  | [] => false
  | _ => forallb Py_UNICODE_ISDIGIT s
  end.

(** [str.strip()]. *)
Fixpoint lstrip (s : pystr) : pystr :=
  match s with
  | c :: r => if Py_UNICODE_ISSPACE c then lstrip r else s
  | [] => []
  end.

Definition strip (s : pystr) : pystr := rev (lstrip (rev (lstrip s))).

(** Python's order on [str]: lexicographic on code points. *)
Fixpoint pystr_le (a b : pystr) : bool :=
  match a, b with
  | [], _ => true
  | _ :: _, [] => false
  | x :: a', y :: b' => (x <? y)%N || (x =? y)%N && pystr_le a' b'
  end.

(** ** [int(str)] *)

(** [sys.get_int_max_str_digits()]: CPython (3.11 and later) refuses to
    convert a longer digit string; 0 switches the check off. *)
Definition int_max_str_digits : N := 4300.

(** [_PyUnicode_TransformDecimalAndSpaceToASCII], one character. *)
Definition transform_decimal_and_space (c : codepoint) : codepoint :=
  if (c <? 127)%N then c
  else if Py_UNICODE_ISSPACE c then 32%N
  else match Py_UNICODE_TODECIMAL c with
       | Some d => (48 + d)%N
       | None => 63%N
       end.

Fixpoint skip_spaces (s : pystr) : pystr :=
  match s with
  | c :: r => if Py_ISSPACE c then skip_spaces r else s
  | [] => []
  end.

(** The digit loop of [PyLong_FromString] in base 10: digits with single
    underscores between them.  Returns the value, the number of digits
    and what follows. *)
Fixpoint scan_digits (s : pystr) (prev_underscore : bool) (acc : Z) (digits : N)
  : option (Z * N * pystr) :=
  match s with
  | c :: r =>
      if ((48 <=? c) && (c <=? 57))%N
      then scan_digits r false (10 * acc + Z.of_N (c - 48)) (digits + 1)%N
      else if (c =? 95)%N
      then (if prev_underscore then None else scan_digits r true acc digits)
      else (if prev_underscore then None else Some (acc, digits, s))
  | [] => if prev_underscore then None else Some (acc, digits, [])
  end.

(** [PyLong_FromString(s, 10)]: [None] stands for [ValueError]. *)
Definition PyLong_FromString (s : pystr) : option Z :=
  let s1 := skip_spaces s in
  let '(negative, s2) :=
    match s1 with
    | 43%N :: r => (false, r)
    | 45%N :: r => (true, r)
    | _ => (false, s1)
    end in
  match s2 with
  | 95%N :: _ => None
  | _ =>
      match scan_digits s2 false 0 0%N with
      | None => None
      | Some (v, digits, rest) =>
          if (digits =? 0)%N then None
          else if ((0 <? int_max_str_digits) && (int_max_str_digits <? digits))%N
          then None
          else match skip_spaces rest with
               | [] => Some (if negative then - v else v)
               | _ :: _ => None
               end
      end
  end.

Definition int_of_str (s : pystr) : option Z :=
  PyLong_FromString (map transform_decimal_and_space s).

(** ** Python values *)

#[local] Set Warnings "-register-all".

(** The values [json.loads] and a parsed form hand to the handler.  The
    code never looks inside a float, a list or an inner dict: it only
    asks for their truth value, [int(...)] and [str(...)].  A float
    carries its IEEE value and the shortest decimal digits with the
    position of the decimal point that [repr] prints for it; a container
    carries the text [repr] prints between its brackets; [PyObject] is
    any other object (the [UploadFile] of a multipart form) with the
    text [str] gives for it. *)
Inductive pyval :=
| PyNone
| PyBool (b : bool)
| PyInt (z : Z)
| PyFloat (x : spec_float) (digits : pystr) (decpt : Z)
| PyStr (s : pystr)
| PyList (items : list pyval) (inner : pystr)
| PyDict (d : gmap pystr pyval) (inner : pystr)
| PyObject (text : pystr).

(** [str(z)] for an [int].  (CPython refuses to print an [int] of more
    than [int_max_str_digits] digits; [json.loads] builds every [int]
    with [int(...)] under the same limit, so no such value reaches the
    handler.) *)
Definition str_of_int (z : Z) : pystr :=
  py (NilZero.string_of_int (Z.to_int z)).

(** [repr] of a float ([float_repr_style] short): fixed notation when
    the decimal point lies in (-4, 16], exponent notation otherwise. *)
Definition float_repr (x : spec_float) (digits : pystr) (decpt : Z) : pystr :=
  match x with
  | S754_nan => py "nan"
  | S754_infinity s => if s then py "-inf" else py "inf"
  | S754_zero s => if s then py "-0.0" else py "0.0"
  | S754_finite s _ _ =>
      let n := Z.of_nat (length digits) in
      (if s then py "-" else []) ++
      (if (decpt <=? -4) || (16 <? decpt) then
         let e := decpt - 1 in
         let mantissa := match digits with
                         | [d] => [d]
                         | ds => take 1 ds ++ py "." ++ drop 1 ds
                         end in
         mantissa ++ py "e" ++ (if e <? 0 then py "-" else py "+")
           ++ (if Z.abs e <? 10 then py "0" else []) ++ str_of_int (Z.abs e)
       else if decpt <=? 0 then
         py "0." ++ repeat 48%N (Z.to_nat (- decpt)) ++ digits
       else if n <=? decpt then
         digits ++ repeat 48%N (Z.to_nat (decpt - n)) ++ py ".0"
       else
         take (Z.to_nat decpt) digits ++ py "." ++ drop (Z.to_nat decpt) digits)
  end.

(** [str(v)]. *)
Definition py_str (v : pyval) : pystr :=
  match v with
  | PyNone => py "None"
  | PyBool b => if b then py "True" else py "False"
  | PyInt z => str_of_int z
  | PyFloat x digits decpt => float_repr x digits decpt
  | PyStr s => s
  | PyList _ inner => py "[" ++ inner ++ py "]"
  | PyDict _ inner => py "{" ++ inner ++ py "}"
  | PyObject text => text
  end.

(** [bool(v)], the truth value [or] and [if] test. *)
Definition py_bool (v : pyval) : bool :=
  match v with
  | PyNone => false
  | PyBool b => b
  | PyInt z => negb (z =? 0)
  | PyFloat (S754_zero _) _ _ => false
  | PyFloat _ _ _ => true
  | PyStr s => match s with [] => false | _ => true end
  | PyList items _ => match items with [] => false | _ => true end
  | PyDict d _ => negb (bool_decide (d = ∅))
  | PyObject _ => true
  end.

(** [int(x)] for a float: truncation towards zero; [None] for the
    [ValueError] of a NaN and the [OverflowError] of an infinity. *)
Definition int_of_float (x : spec_float) : option Z :=
  match x with
  | S754_zero _ => Some 0
  | S754_infinity _ | S754_nan => None
  | S754_finite s m e =>
      let magnitude := Z.shiftl (Z.pos m) e in
      Some (if s then - magnitude else magnitude)
  end.

(** [int(v)]: [None] when the call raises ([TypeError], [ValueError],
    [OverflowError]). *)
Definition py_int (v : pyval) : option Z :=
  match v with
  | PyNone => None
  | PyBool b => Some (if b then 1 else 0)
  | PyInt z => Some z
  | PyFloat x _ _ => int_of_float x
  | PyStr s => int_of_str s
  | PyList _ _ | PyDict _ _ | PyObject _ => None
  end.

(** ** Helpers of [app.py] *)

(** [gotify_priority_to_ntfy], lines 53-71. *)
Definition gotify_priority_to_ntfy (p : pyval) : pystr :=
  match py_int p with
  | None => py "3"
  | Some p_int =>
      if p_int <=? 0 then py "1"
      else if p_int <=? 2 then py "2"
      else if p_int <=? 4 then py "3"
      else if p_int <=? 7 then py "4"
      else py "5"
  end.

(** ** Encodings *)

Definition byte_of_N (n : N) : byte :=
  byte_of_ascii (ascii_of_N (n mod 256)).

(** UTF-8 of one code point; a surrogate has none ([UnicodeEncodeError]). *)
Definition utf8_char (c : codepoint) : option (list byte) :=
  (if c <? 0x80 then Some [byte_of_N c]
   else if c <? 0x800 then
     Some [byte_of_N (0xC0 + c / 64); byte_of_N (0x80 + c mod 64)]
   else if (0xD800 <=? c) && (c <=? 0xDFFF) then None
   else if c <? 0x10000 then
     Some [byte_of_N (0xE0 + c / 4096); byte_of_N (0x80 + c / 64 mod 64);
           byte_of_N (0x80 + c mod 64)]
   else if c <? 0x110000 then
     Some [byte_of_N (0xF0 + c / 262144); byte_of_N (0x80 + c / 4096 mod 64);
           byte_of_N (0x80 + c / 64 mod 64); byte_of_N (0x80 + c mod 64)]
   else None)%N.

(** [s.encode("utf-8")]; [None] when it raises. *)
Fixpoint encode_utf8 (s : pystr) : option (list byte) :=
  match s with
  | [] => Some []
  | c :: r =>
      match utf8_char c, encode_utf8 r with
      | Some bs, Some rest => Some (bs ++ rest)
      | _, _ => None
      end
  end.

Definition b64_alphabet : pystr :=
  py "ABCDEFGHIJKLMNOPQRSTUVWXYZabcdefghijklmnopqrstuvwxyz0123456789+/".

Definition b64_char (i : N) : codepoint :=
  nth (N.to_nat (i mod 64)) b64_alphabet 0%N.

(** [base64.b64encode(bs).decode("ascii")]. *)
Fixpoint b64encode (bs : list byte) : pystr :=
  match bs with
  | [] => []
  | [a] =>
      let n := (Byte.to_N a * 65536)%N in
      [b64_char (n / 262144); b64_char (n / 4096); 61%N; 61%N]
  | [a; b] =>
      let n := (Byte.to_N a * 65536 + Byte.to_N b * 256)%N in
      [b64_char (n / 262144); b64_char (n / 4096); b64_char (n / 64); 61%N]
  | a :: b :: c :: r =>
      let n := (Byte.to_N a * 65536 + Byte.to_N b * 256 + Byte.to_N c)%N in
      [b64_char (n / 262144); b64_char (n / 4096); b64_char (n / 64);
       b64_char n] ++ b64encode r
  end.

(** ** Exceptions and the outbound call *)

(** What a call may raise: FastAPI's [HTTPException], answered with its
    status code and [{"detail": ...}], or any other exception, which no
    handler of [app.py] catches (the server answers 500). *)
Inductive exn :=
| HTTPException (status_code : Z) (detail : pystr)
| Unhandled.

Inductive result (A : Type) :=
| Ok (a : A)
| Raise (e : exn).
Arguments Ok {A} a.
Arguments Raise {A} e.

(** The arguments of [requests.post(url, data=..., headers=...,
    timeout=...)]. *)
Record PostCall := {
  url : pystr;
  data : list byte;
  headers : gmap string pystr;
  timeout : Z;
}.

(** What [requests.post] does: it returns a response, of which the code
    reads [status_code] and [text]; or it raises a
    [requests.RequestException] [e] (connection error, timeout, ...), of
    which the code reads [str(e)]; or it raises something else. *)
Inductive PostOutcome :=
| Response (status_code : Z) (text : pystr)
| RequestException (e : pystr)
| OtherException.

(** A computation of the handler: the outbound calls made, in order, and
    the value returned or the exception raised. *)
Definition IO (A : Type) : Type := list PostCall * result A.

Definition ret {A} (a : A) : IO A := ([], Ok a).
Definition raise {A} (e : exn) : IO A := ([], Raise e).
Definition bind {A B} (m : IO A) (f : A -> IO B) : IO B :=
  match m with
  | (calls, Ok a) => let '(calls', r) := f a in (calls ++ calls', r)
  | (calls, Raise e) => (calls, Raise e)
  end.
Definition lift {A} (r : result A) : IO A := ([], r).

#[global] Instance IO_ret : MRet IO := @ret.
#[global] Instance IO_bind : MBind IO := fun A B f m => bind m f.

(** [requests.post] against the ntfy server [ntfy]. *)
Definition requests_post (ntfy : PostCall -> PostOutcome) (call : PostCall)
  : IO PostOutcome :=
  ([call], Ok (ntfy call)).

(** ** Configuration *)

(** The module-level constants of lines 21-45, as loaded at start-up.
    [TOKEN_TOPIC_MAP] is whatever JSON object the operator configured. *)
Record Config := {
  NTFY_SERVER : pystr;
  NTFY_USERNAME : pystr;
  NTFY_PASSWORD : pystr;
  DEFAULT_TOPIC : pystr;
  DEFAULT_TAGS : pystr;
  TITLE_PREFIX : pystr;
  TOKEN_TOPIC_MAP : gmap pystr pyval;
}.

(** [ntfy_auth_header], lines 74-79. *)
Definition ntfy_auth_header (cfg : Config) : result (gmap string pystr) :=
  match NTFY_USERNAME cfg with
  | [] => Ok ∅
  | _ =>
      match encode_utf8 (NTFY_USERNAME cfg ++ py ":" ++ NTFY_PASSWORD cfg) with
      | None => Raise Unhandled
      | Some bytes =>
          let token := b64encode bytes in
          Ok {[ "Authorization"%string := py "Basic " ++ token ]}
      end
  end.

(** [publish_to_ntfy], lines 82-99.  [topic] is formatted into the URL
    as the f-string does, with [str]. *)
Definition publish_to_ntfy (cfg : Config) (ntfy : PostCall -> PostOutcome)
    (topic : pyval) (title message priority tags : pystr) : IO unit :=
  let url := NTFY_SERVER cfg ++ py "/" ++ py_str topic in
  let headers : gmap string pystr :=
    <[ "Tags"%string := tags ]> (<[ "Priority"%string := priority ]> ∅) in
  let headers :=
    match title with
    | [] => headers
    | _ => <[ "Title"%string := title ]> headers
    end in
  auth ← lift (ntfy_auth_header cfg);
  let headers := auth ∪ headers in
  match encode_utf8 message with
  | None => raise Unhandled
  | Some body =>
      r ← requests_post ntfy
            {| url := url; data := body; headers := headers; timeout := 10 |};
      match r with
      | RequestException e =>
          raise (HTTPException 502 (py "Failed to reach ntfy: " ++ e))
      | OtherException => raise Unhandled
      | Response status_code text =>
          if 400 <=? status_code
          then raise (HTTPException 502
                 (py "ntfy returned " ++ str_of_int status_code ++ py ": "
                    ++ take 200 text))
          else ret tt
      end
  end.

(** ** The inbound request *)

(** What the handler reads of a Starlette [Request]: the [token] query
    parameter, the [content-type] header (header values are latin-1
    text, a [string]), and what [await request.json()] and
    [await request.form()] return or raise. *)
Record Request := {
  query_token : option pystr;
  content_type : option string;
  json : result pyval;
  form : result (gmap pystr pyval);
}.

(** [str.lower()] on latin-1 text. *)
Definition lower_char (a : ascii) : ascii :=
  let n := N_of_ascii a in
  if ((65 <=? n) && (n <=? 90)
      || (192 <=? n) && (n <=? 222) && negb (n =? 215))%N
  then ascii_of_N (n + 32)
  else a.

Fixpoint lower (s : string) : string :=
  match s with
  | EmptyString => EmptyString
  | String a r => String (lower_char a) (lower r)
  end.

(** [needle in haystack] for two strings. *)
Fixpoint contains (needle haystack : string) : bool :=
  String.prefix needle haystack ||
  match haystack with
  | EmptyString => false
  | String _ r => contains needle r
  end.

(** [str(d.get(key) or "")], lines 138-139 and 146-147. *)
Definition str_or_empty (v : option pyval) : pystr :=
  match v with
  | Some x => if py_bool x then py_str x else []
  | None => []
  end.

(** [d.get(key, None)]. *)
Definition get_or_None (v : option pyval) : pyval :=
  match v with
  | Some x => x
  | None => PyNone
  end.

(** The local variables the two branches of lines 133-149 set. *)
Record Inbound := {
  title : pystr;
  message : pystr;
  priority_val : pyval;
  extras : option (gmap pystr pyval);
}.

(** Lines 126-149: the body as JSON or as a form. *)
Definition read_body (request : Request) : IO Inbound :=
  let content_type :=
    lower (match content_type request with Some h => h | None => "" end) in
  if contains "application/json" content_type then
    payload ← lift (json request);
    match payload with
    | PyDict payload _ =>
        let extras_val := get_or_None (payload !! py "extras") in
        ret {| title := str_or_empty (payload !! py "title");
               message := str_or_empty (payload !! py "message");
               priority_val := get_or_None (payload !! py "priority");
               extras := match extras_val with
                         | PyDict d _ => Some d
                         | _ => None
                         end |}
    | _ => raise (HTTPException 400 (py "Invalid JSON payload"))
    end
  else
    form ← lift (form request);
    ret {| title := str_or_empty (form !! py "title");
           message := str_or_empty (form !! py "message");
           priority_val := get_or_None (form !! py "priority");
           extras := None |}.

(** The body of the 200 answer, lines 173-181. *)
Record GotifyResponse := {
  resp_id : Z;
  resp_appid : Z;
  resp_title : pystr;
  resp_message : pystr;
  resp_priority : Z;
}.

(** [JSONResponse(content)] renders [content] at once, as
    [json.dumps(content, ensure_ascii=False).encode("utf-8")]. *)
Definition JSONResponse (content : GotifyResponse) : IO GotifyResponse :=
  match encode_utf8 (resp_title content), encode_utf8 (resp_message content) with
  | Some _, Some _ => ret content
  | _, _ => raise Unhandled
  end.

(** Line 179: [int(priority_val) if str(priority_val).isdigit() else 0];
    the [int] call is not guarded here. *)
Definition response_priority (priority_val : pyval) : IO Z :=
  if isdigit (py_str priority_val)
  then match py_int priority_val with
       | Some n => ret n
       | None => raise Unhandled
       end
  else ret 0.

(** Lines 156-160: the tags, with [extras] added when the message has a
    non-empty [extras] object. *)
Definition tags_of (cfg : Config) (extras : option (gmap pystr pyval)) : pystr :=
  let tags := DEFAULT_TAGS cfg in
  match extras with
  | Some d => if bool_decide (d = ∅) then tags else tags ++ py ",extras"
  | None => tags
  end.

(** Line 162:
    [f"{TITLE_PREFIX}{title}".strip() if title else TITLE_PREFIX.strip()]. *)
Definition full_title (cfg : Config) (title : pystr) : pystr :=
  match title with
  | [] => strip (TITLE_PREFIX cfg)
  | _ => strip (TITLE_PREFIX cfg ++ title)
  end.

(** Lines 173-181: the answer, built after the publish call returned. *)
Definition respond (inbound : Inbound) : IO GotifyResponse :=
  priority ← response_priority (priority_val inbound);
  JSONResponse {| resp_id := 0; resp_appid := 0; resp_title := title inbound;
                  resp_message := message inbound; resp_priority := priority |}.

(** Lines 151-181: what the handler does with the parsed body. *)
Definition forward (cfg : Config) (ntfy : PostCall -> PostOutcome)
    (topic : pyval) (inbound : Inbound) : IO GotifyResponse :=
  let title := title inbound in
  let message := message inbound in
  let priority_val := priority_val inbound in
  match message, title with
  | [], [] => raise (HTTPException 400 (py "Missing title/message"))
  | _, _ =>
      let ntfy_priority := gotify_priority_to_ntfy priority_val in
      let tags := tags_of cfg (extras inbound) in
      _ ← publish_to_ntfy cfg ntfy topic (full_title cfg title)
            (match message with [] => title | _ => message end)
            ntfy_priority tags;
      respond inbound
  end.

(** Lines 123-124: [query_params.get("token", "")], then
    [TOKEN_TOPIC_MAP.get(token, DEFAULT_TOPIC)]. *)
Definition resolve_topic (cfg : Config) (query_token : option pystr) : pyval :=
  let token := match query_token with Some t => t | None => [] end in
  match TOKEN_TOPIC_MAP cfg !! token with
  | Some mapped => mapped
  | None => PyStr (DEFAULT_TOPIC cfg)
  end.

(** [gotify_message], lines 109-181. *)
Definition gotify_message (cfg : Config) (ntfy : PostCall -> PostOutcome)
    (request : Request) : IO GotifyResponse :=
  let topic := resolve_topic cfg (query_token request) in
  inbound ← read_body request;
  forward cfg ntfy topic inbound.

(** ** Parts of [publish_to_ntfy], named for the proofs *)

(** Lines 84-89: the headers before the credentials are merged in. *)
Definition own_headers (title priority tags : pystr) : gmap string pystr :=
  let headers : gmap string pystr :=
    <[ "Tags"%string := tags ]> (<[ "Priority"%string := priority ]> ∅) in
  match title with
  | [] => headers
  | _ => <[ "Title"%string := title ]> headers
  end.

(** The call made at line 94 once the credentials [auth] and the encoded
    body are there. *)
Definition the_call (cfg : Config) (topic : pyval) (title priority tags : pystr)
    (auth : gmap string pystr) (body : list byte) : PostCall :=
  {| url := NTFY_SERVER cfg ++ py "/" ++ py_str topic; data := body;
     headers := auth ∪ own_headers title priority tags; timeout := 10 |}.

(** Lines 95-99: what the outcome of the call becomes. *)
Definition classify (r : PostOutcome) : result unit :=
  match r with
  | RequestException e =>
      Raise (HTTPException 502 (py "Failed to reach ntfy: " ++ e))
  | OtherException => Raise Unhandled
  | Response status_code text =>
      if 400 <=? status_code
      then Raise (HTTPException 502
             (py "ntfy returned " ++ str_of_int status_code ++ py ": "
                ++ take 200 text))
      else Ok tt
  end.

(** The publish call of line 164, with its arguments. *)
Definition publish_of (cfg : Config) (ntfy : PostCall -> PostOutcome)
    (topic : pyval) (inbound : Inbound) : IO unit :=
  publish_to_ntfy cfg ntfy topic (full_title cfg (title inbound))
    (match message inbound with [] => title inbound | _ => message inbound end)
    (gotify_priority_to_ntfy (priority_val inbound))
    (tags_of cfg (extras inbound)).

(** The configuration with another password. *)
Definition with_password (cfg : Config) (password : pystr) : Config :=
  {| NTFY_SERVER := NTFY_SERVER cfg; NTFY_USERNAME := NTFY_USERNAME cfg;
     NTFY_PASSWORD := password; DEFAULT_TOPIC := DEFAULT_TOPIC cfg;
     DEFAULT_TAGS := DEFAULT_TAGS cfg; TITLE_PREFIX := TITLE_PREFIX cfg;
     TOKEN_TOPIC_MAP := TOKEN_TOPIC_MAP cfg |}.

(** ** A sample deployment *)

(** A configuration with credentials, a title prefix and one token. *)
Definition sample_config : Config :=
  {| NTFY_SERVER := py "https://ntfy.example.com";
     NTFY_USERNAME := py "user"; NTFY_PASSWORD := py "pass";
     DEFAULT_TOPIC := py "monitoring-adapter-info";
     DEFAULT_TAGS := py "gotify,adapter";
     TITLE_PREFIX := py "[gotify] ";
     TOKEN_TOPIC_MAP := {[ py "tok" := PyStr (py "alerts") ]} |}.

(** [sample_config] without a user name. *)
Definition anonymous_config : Config :=
  {| NTFY_SERVER := py "https://ntfy.example.com";
     NTFY_USERNAME := []; NTFY_PASSWORD := py "pass";
     DEFAULT_TOPIC := py "monitoring-adapter-info";
     DEFAULT_TAGS := py "gotify,adapter";
     TITLE_PREFIX := py "[gotify] ";
     TOKEN_TOPIC_MAP := {[ py "tok" := PyStr (py "alerts") ]} |}.

(** A JSON request with the given token and body. *)
Definition json_request (token : option pystr) (payload : gmap pystr pyval) : Request :=
  {| query_token := token;
     content_type := Some "application/json"%string;
     json := Ok (PyDict payload []);
     form := Raise Unhandled |}.

(** The body [{"title": "T", "message": "M", "priority": 8}]. *)
Definition payload_TM8 : gmap pystr pyval :=
  <[ py "title" := PyStr (py "T") ]>
    (<[ py "message" := PyStr (py "M") ]> {[ py "priority" := PyInt 8 ]}).

(** An ntfy server that accepts everything, and one that refuses. *)
Definition ntfy_accepts : PostCall → PostOutcome := λ _, Response 200 [].
Definition ntfy_forbids : PostCall → PostOutcome :=
  λ _, Response 403 (py "forbidden").

(** An ntfy server that cannot be reached. *)
Definition ntfy_unreachable : PostCall → PostOutcome :=
  λ _, RequestException (py "timed out").

(** The body [{"title": "T", "priority": p}], without a message. *)
Definition payload_T (p : pyval) : gmap pystr pyval :=
  <[ py "title" := PyStr (py "T") ]> {[ py "priority" := p ]}.

(** The float 8.5, which [repr] prints as "8.5". *)
Definition float_8_5 : pyval := PyFloat (S754_finite false 17 (-1)) (py "85") 1.

(** [sample_config] with a prefix that begins with a blank. *)
Definition indented_config : Config :=
  {| NTFY_SERVER := py "https://ntfy.example.com";
     NTFY_USERNAME := py "user"; NTFY_PASSWORD := py "pass";
     DEFAULT_TOPIC := py "monitoring-adapter-info";
     DEFAULT_TAGS := py "gotify,adapter";
     TITLE_PREFIX := py " [gotify] ";
     TOKEN_TOPIC_MAP := {[ py "tok" := PyStr (py "alerts") ]} |}.

(** ** Start-up, lines 13-48 *)

(** What the module reads when it is imported: the environment
    ([os.environ]), the text [open(path, "r", encoding="utf-8").read()]
    returns for a path ([None] when it raises), and [json.loads]
    ([None] when it raises). *)
Record Host := {
  environ : gmap string pystr;
  read_text : pystr → option pystr;
  json_loads : pystr → option pyval;
}.

(** [os.getenv(name, default)]. *)
Definition getenv (host : Host) (name : string) (default : pystr) : pystr :=
  match environ host !! name with
  | Some value => value
  | None => default
  end.

(** [read_secret], lines 13-16; [None] when [open] or [read] raises. *)
Definition read_secret (host : Host) (path : pystr) : option pystr :=
  match read_text host path with
  | Some text => Some (strip text)
  | None => None
  end.

(** [s.rstrip("/")]. *)
Fixpoint lstrip_char (c : codepoint) (s : pystr) : pystr :=
  match s with
  | a :: r => if (a =? c)%N then lstrip_char c r else s
  | [] => []
  end.

Definition rstrip_char (c : codepoint) (s : pystr) : pystr :=
  rev (lstrip_char c (rev s)).

(** How the import of [app.py] ends: with the constants set, with the
    exception of [read_secret] at line 28, or with the [RuntimeError] of
    line 48. *)
Inductive Startup :=
| Started (cfg : Config)
| SecretError
| RuntimeError (msg : pystr).

(** Lines 38-41: the text the token map is parsed from, the stripped file
    when [TOKEN_TOPIC_MAP_FILE] is set, else the variable
    [TOKEN_TOPIC_MAP] or "{}"; [None] when the file cannot be read. *)
Definition token_map_text (host : Host) : option pystr :=
  let TOKEN_TOPIC_MAP_FILE := getenv host "TOKEN_TOPIC_MAP_FILE" [] in
  match TOKEN_TOPIC_MAP_FILE with
  | [] => Some (getenv host "TOKEN_TOPIC_MAP" (py "{}"))
  | _ => read_secret host TOKEN_TOPIC_MAP_FILE
  end.

(** Lines 34-45: the token map; everything that goes wrong gives [{}]. *)
Definition load_token_topic_map (host : Host) : gmap pystr pyval :=
  match token_map_text host with
  | None => ∅
  | Some text =>
      match json_loads host text with
      | Some (PyDict d _) => d
      | _ => ∅
      end
  end.

(** Lines 21-48. *)
Definition load_config (host : Host) : Startup :=
  let NTFY_SERVER := rstrip_char 47%N (getenv host "NTFY_SERVER" []) in
  let NTFY_USERNAME := getenv host "NTFY_USERNAME" [] in
  let NTFY_PASSWORD := getenv host "NTFY_PASSWORD" [] in
  let NTFY_PASSWORD_FILE := getenv host "NTFY_PASSWORD_FILE" [] in
  match (match NTFY_PASSWORD_FILE with
         | [] => Some NTFY_PASSWORD
         | _ => read_secret host NTFY_PASSWORD_FILE
         end) with
  | None => SecretError
  | Some NTFY_PASSWORD =>
      let DEFAULT_TOPIC := getenv host "DEFAULT_TOPIC" (py "monitoring-adapter-info") in
      let DEFAULT_TAGS := getenv host "DEFAULT_TAGS" (py "gotify,adapter") in
      let TITLE_PREFIX := getenv host "TITLE_PREFIX" [] in
      let TOKEN_TOPIC_MAP := load_token_topic_map host in
      match NTFY_SERVER with
      | [] => RuntimeError
                (py "NTFY_SERVER is required (e.g. https://ntfy.example.com)")
      | _ =>
          Started {| NTFY_SERVER := NTFY_SERVER; NTFY_USERNAME := NTFY_USERNAME;
                     NTFY_PASSWORD := NTFY_PASSWORD;
                     DEFAULT_TOPIC := DEFAULT_TOPIC; DEFAULT_TAGS := DEFAULT_TAGS;
                     TITLE_PREFIX := TITLE_PREFIX;
                     TOKEN_TOPIC_MAP := TOKEN_TOPIC_MAP |}
      end
  end.

(** The JSON text of the map from "tok" to "alerts". *)
Definition sample_map_text : pystr :=
  py "{" ++ [34%N] ++ py "tok" ++ [34%N] ++ py ": " ++ [34%N] ++ py "alerts"
    ++ [34%N] ++ py "}".

(** A host for the examples: the server with a trailing slash, a password
    file that ends in a newline, a token map given inline; its
    [json.loads] knows the two texts the examples use. *)
Definition sample_host : Host :=
  {| environ :=
       <[ "NTFY_SERVER"%string := py "https://ntfy.example.com/" ]>
       (<[ "NTFY_USERNAME"%string := py "user" ]>
       (<[ "NTFY_PASSWORD"%string := py "ignored" ]>
       (<[ "NTFY_PASSWORD_FILE"%string := py "/run/secrets/ntfy" ]>
       {[ "TOKEN_TOPIC_MAP"%string := sample_map_text ]})));
     read_text := λ path,
       if bool_decide (path = py "/run/secrets/ntfy")
       then Some (py "pass" ++ [10%N]) else None;
     json_loads := λ text,
       if bool_decide (text = py "{}") then Some (PyDict ∅ [])
       else if bool_decide (text = sample_map_text)
       then Some (PyDict {[ py "tok" := PyStr (py "alerts") ]}
                    (py "'tok': 'alerts'"))
       else None |}.

(** A host that sets the server and nothing else. *)
Definition minimal_host : Host :=
  {| environ := {[ "NTFY_SERVER"%string := py "https://ntfy.example.com" ]};
     read_text := λ _, None;
     json_loads := λ text,
       if bool_decide (text = py "{}") then Some (PyDict ∅ []) else None |}.

(** [host] with the environment variable [name] set to [value]. *)
Definition setenv (host : Host) (name : string) (value : pystr) : Host :=
  {| environ := <[ name := value ]> (environ host);
     read_text := read_text host; json_loads := json_loads host |}.

(** [sample_host] with a token map that is no JSON. *)
Definition broken_map_host : Host :=
  setenv sample_host "TOKEN_TOPIC_MAP" (py "{tok: alerts").

(** A form request with the given token and fields. *)
Definition form_request (token : option pystr) (fields : gmap pystr pyval) : Request :=
  {| query_token := token;
     content_type := Some "application/x-www-form-urlencoded"%string;
     json := Raise Unhandled;
     form := Ok fields |}.

(** The test of line 133 on the content type of line 126. *)
Definition is_json (request : Request) : bool :=
  contains "application/json"
    (lower (match content_type request with Some h => h | None => "" end)).

(** The body [{"message": "M", "extras": {"k": 1}}]. *)
Definition payload_M_extras : gmap pystr pyval :=
  <[ py "message" := PyStr (py "M") ]>
    {[ py "extras" := PyDict {[ py "k" := PyInt 1 ]} (py "'k': 1") ]}.

(** The body [{"title": 0, "message": false}]. *)
Definition payload_falsy : gmap pystr pyval :=
  <[ py "title" := PyInt 0 ]> {[ py "message" := PyBool false ]}.

(** The form [message=M&priority=6]. *)
Definition fields_M_6 : gmap pystr pyval :=
  <[ py "message" := PyStr (py "M") ]> {[ py "priority" := PyStr (py "6") ]}.

(** The form [message=M&priority=²] (a superscript two). *)
Definition fields_M_superscript : gmap pystr pyval :=
  <[ py "message" := PyStr (py "M") ]> {[ py "priority" := PyStr [0xb2%N] ]}.

(** The body [{"message": "\ud800"}], a lone surrogate. *)
Definition payload_surrogate : gmap pystr pyval :=
  {[ py "message" := PyStr [0xd800%N] ]}.

(** * Properties *)

(** ** The priority mapper *)

Section PriorityMapper.

Lemma band_of_int (p : Z) :
  gotify_priority_to_ntfy (PyInt p) =
    if p <=? 0 then py "1" else if p <=? 2 then py "2"
    else if p <=? 4 then py "3" else if p <=? 7 then py "4" else py "5".
Proof. reflexivity. Qed.

Lemma band_cases (raw : pyval) :
  gotify_priority_to_ntfy raw ∈ map py ["1"; "2"; "3"; "4"; "5"]%string.
Proof.
  unfold gotify_priority_to_ntfy.
  repeat case_match; cbn; set_solver.
Qed.

End PriorityMapper.

(** C1. [gotify_priority_to_ntfy] returns one of "1".."5" for every
    value: "3" when [int(raw)] raises (as for [None], for a word or for
    the text of a decimal fraction), and otherwise the band of the
    integer: p ≤ 0 gives "1", 1..2 gives "2", 3..4 gives "3", 5..7 gives
    "4", p ≥ 8 gives "5". *)
Theorem gotify_priority_to_ntfy_total_banding (raw : pyval) :
  gotify_priority_to_ntfy raw ∈ map py ["1"; "2"; "3"; "4"; "5"]%string
  ∧ (py_int raw = None → gotify_priority_to_ntfy raw = py "3")
  ∧ (∀ p : Z, py_int raw = Some p →
       (p ≤ 0 → gotify_priority_to_ntfy raw = py "1")
       ∧ (1 ≤ p ≤ 2 → gotify_priority_to_ntfy raw = py "2")
       ∧ (3 ≤ p ≤ 4 → gotify_priority_to_ntfy raw = py "3")
       ∧ (5 ≤ p ≤ 7 → gotify_priority_to_ntfy raw = py "4")
       ∧ (8 ≤ p → gotify_priority_to_ntfy raw = py "5"))
  ∧ py_int PyNone = None
  ∧ py_int (PyStr (py "high")) = None
  ∧ py_int (PyStr (py "7.5")) = None.
Proof.
  split; [apply band_cases|].
  split; [unfold gotify_priority_to_ntfy; by intros ->|].
  split; [|by vm_compute].
  intros p Hp. unfold gotify_priority_to_ntfy. rewrite Hp.
  repeat split; intros H; repeat case_match; try reflexivity; lia.
Qed.

(** C6. On integers the mapper is monotone for the order
    "1" < "2" < "3" < "4" < "5" (Python's order on these strings, which
    is the order of the numbers they spell), and the boundary inputs
    -5, 0, 1, 2, 3, 4, 5, 7, 8, 100 give "1","1","2","2","3","3","4","4",
    "5","5". *)
Theorem gotify_priority_to_ntfy_monotone :
  (∀ p q : Z, p ≤ q →
     pystr_le (gotify_priority_to_ntfy (PyInt p))
              (gotify_priority_to_ntfy (PyInt q)) = true)
  ∧ (∀ a b : Z, 1 ≤ a ≤ 5 → 1 ≤ b ≤ 5 →
       pystr_le (str_of_int a) (str_of_int b) = (a <=? b))
  ∧ map (λ p, gotify_priority_to_ntfy (PyInt p)) [-5; 0; 1; 2; 3; 4; 5; 7; 8; 100]
    = map py ["1"; "1"; "2"; "2"; "3"; "3"; "4"; "4"; "5"; "5"]%string.
Proof.
  split; [|split; [|reflexivity]].
  - intros p q Hpq. rewrite !band_of_int.
    repeat case_match; try reflexivity; lia.
  - intros a b Ha Hb.
    assert (Hcase : ∀ x, 1 ≤ x ≤ 5 → x = 1 ∨ x = 2 ∨ x = 3 ∨ x = 4 ∨ x = 5) by lia.
    destruct (Hcase a Ha) as [->|[->|[->|[->| ->]]]];
      destruct (Hcase b Hb) as [->|[->|[->|[->| ->]]]]; reflexivity.
Qed.

Lemma gotify_priority_to_ntfy_monotone_witness :
  pystr_le (gotify_priority_to_ntfy (PyInt 2))
           (gotify_priority_to_ntfy (PyInt 5)) = true.
Proof.
  apply (proj1 gotify_priority_to_ntfy_monotone 2 5). lia.
Defined.

Lemma gotify_priority_to_ntfy_total_banding_witness :
  gotify_priority_to_ntfy (PyStr (py " 8 ")) = py "5".
Proof.
  apply (proj1 (proj2 (proj2 (gotify_priority_to_ntfy_total_banding
           (PyStr (py " 8 ")))))) with (p := 8); [reflexivity | lia].
Defined.

(** ** The publisher *)

Section Publisher.

Context (cfg : Config) (ntfy : PostCall → PostOutcome).
Context (topic : pyval) (title message priority tags : pystr).

Lemma publish_to_ntfy_unfold :
  publish_to_ntfy cfg ntfy topic title message priority tags =
    match ntfy_auth_header cfg with
    | Raise e => ([], Raise e)
    | Ok auth =>
        match encode_utf8 message with
        | None => ([], Raise Unhandled)
        | Some body =>
            let call := the_call cfg topic title priority tags auth body in
            ([call], classify (ntfy call))
        end
    end.
Proof.
  unfold publish_to_ntfy, the_call, own_headers.
  destruct (ntfy_auth_header cfg) as [auth|e]; [|reflexivity].
  cbn. destruct (encode_utf8 message) as [body|]; [|reflexivity].
  cbn. destruct title; cbn;
    match goal with |- context [ntfy ?c] => destruct (ntfy c) as [st text|e|] end;
    cbn; try reflexivity; destruct (400 <=? st); reflexivity.
Qed.

Lemma publish_to_ntfy_calls (call : PostCall) :
  call ∈ (publish_to_ntfy cfg ntfy topic title message priority tags).1 →
  ∃ auth body,
    ntfy_auth_header cfg = Ok auth ∧ encode_utf8 message = Some body
    ∧ call = the_call cfg topic title priority tags auth body
    ∧ publish_to_ntfy cfg ntfy topic title message priority tags
      = ([call], classify (ntfy call)).
Proof.
  rewrite publish_to_ntfy_unfold.
  destruct (ntfy_auth_header cfg) as [auth|e]; cbn; [|by intros ?%elem_of_nil].
  destruct (encode_utf8 message) as [body|]; cbn; [|by intros ?%elem_of_nil].
  intros ->%list_elem_of_singleton. by exists auth, body.
Qed.

Lemma auth_header_keys (auth : gmap string pystr) (k : string) :
  ntfy_auth_header cfg = Ok auth → k ≠ "Authorization"%string → auth !! k = None.
Proof.
  unfold ntfy_auth_header. intros H Hk.
  destruct (NTFY_USERNAME cfg); [by inversion H|].
  destruct (encode_utf8 _); inversion H. by apply lookup_singleton_ne.
Qed.

Lemma auth_header_raises (e : exn) :
  ntfy_auth_header cfg = Raise e → e = Unhandled.
Proof.
  unfold ntfy_auth_header.
  destruct (NTFY_USERNAME cfg); [discriminate|].
  destruct (encode_utf8 _); congruence.
Qed.

Lemma own_headers_lookup :
  own_headers title priority tags !! "Priority"%string = Some priority
  ∧ own_headers title priority tags !! "Tags"%string = Some tags
  ∧ own_headers title priority tags !! "Title"%string
    = (match title with [] => None | _ => Some title end)
  ∧ own_headers title priority tags !! "Authorization"%string = None.
Proof. unfold own_headers. destruct title; by simplify_map_eq. Qed.

End Publisher.

(** C4. [publish_to_ntfy] ends in a 502 exactly when the call it made
    failed: a [RequestException] gives 502 with "Failed to reach ntfy: "
    and the text of the exception, a response with status ≥ 400 gives
    502 with the status and the first 200 characters of the body, and
    every status below 400 is success.  The call is made as soon as the
    credentials and the message can be encoded. *)
Theorem publish_to_ntfy_502 (cfg : Config) (ntfy : PostCall → PostOutcome)
    (topic : pyval) (title message priority tags : pystr) :
  let run := publish_to_ntfy cfg ntfy topic title message priority tags in
  ((∃ detail, run.2 = Raise (HTTPException 502 detail)) ↔
     ∃ call, run.1 = [call]
       ∧ ((∃ e, ntfy call = RequestException e)
          ∨ (∃ status text, ntfy call = Response status text ∧ 400 ≤ status)))
  ∧ (∀ call e, call ∈ run.1 → ntfy call = RequestException e →
       run.2 = Raise (HTTPException 502 (py "Failed to reach ntfy: " ++ e)))
  ∧ (∀ call status text, call ∈ run.1 → ntfy call = Response status text →
       400 ≤ status →
       run.2 = Raise (HTTPException 502
                 (py "ntfy returned " ++ str_of_int status ++ py ": " ++ take 200 text))
       ∧ (length (take 200 text) ≤ 200)%nat)
  ∧ (∀ call status text, call ∈ run.1 → ntfy call = Response status text →
       status < 400 → run.2 = Ok tt)
  ∧ (∀ auth body, ntfy_auth_header cfg = Ok auth → encode_utf8 message = Some body →
       ∃ call, run.1 = [call]).
Proof.
  intros run. subst run. repeat split.
  - intros [detail H]. rewrite publish_to_ntfy_unfold in H |- *.
    destruct (ntfy_auth_header cfg) as [auth|e0] eqn:Hauth; cbn in *.
    + destruct (encode_utf8 message) as [body|]; cbn in *; [|discriminate].
      eexists; split; [reflexivity|].
      destruct (ntfy _) as [st text|e|]; cbn in *; [|by left; eauto|discriminate].
      destruct (Z.leb_spec 400 st); [right; eauto|discriminate].
    + apply auth_header_raises in Hauth. congruence.
  - intros (call & Hcalls & Hfail).
    assert (Hin : call ∈ (publish_to_ntfy cfg ntfy topic title message priority tags).1)
      by (rewrite Hcalls; apply list_elem_of_here).
    apply publish_to_ntfy_calls in Hin as (auth & body & _ & _ & _ & ->). cbn.
    destruct Hfail as [[e ->]|(st & text & -> & Hst)]; cbn; [eauto|].
    destruct (Z.leb_spec 400 st); [eauto|lia].
  - intros call e (auth & body & _ & _ & _ & ->)%publish_to_ntfy_calls ->.
    reflexivity.
  - apply publish_to_ntfy_calls in H as (auth & body & _ & _ & _ & ->).
    rewrite H0. cbn. destruct (Z.leb_spec 400 status); [reflexivity|lia].
  - rewrite length_take. lia.
  - intros call st text (auth & body & _ & _ & _ & ->)%publish_to_ntfy_calls -> Hst.
    cbn. destruct (Z.leb_spec 400 st); [lia|reflexivity].
  - intros auth body Hauth Hbody. rewrite publish_to_ntfy_unfold, Hauth, Hbody.
    cbn. eauto.
Qed.

(** C8. Every call [publish_to_ntfy] makes carries the Priority and the
    Tags header, and the Title header with the title it was given when
    that title is not empty; with an empty title there is no Title
    header. *)
Theorem publish_to_ntfy_headers (cfg : Config) (ntfy : PostCall → PostOutcome)
    (topic : pyval) (title message priority tags : pystr) (call : PostCall) :
  call ∈ (publish_to_ntfy cfg ntfy topic title message priority tags).1 →
  headers call !! "Priority"%string = Some priority
  ∧ headers call !! "Tags"%string = Some tags
  ∧ (title ≠ [] → headers call !! "Title"%string = Some title)
  ∧ (title = [] → headers call !! "Title"%string = None).
Proof.
  intros (auth & body & Hauth & _ & -> & _)%publish_to_ntfy_calls. cbn.
  destruct (own_headers_lookup title priority tags) as (Hp & Ht & Hti & _).
  rewrite !lookup_union_r by (by eapply auth_header_keys).
  rewrite Hp, Ht, Hti. repeat split; [by destruct title|by intros ->].
Qed.

(** ** The handler *)

Section Handler.

Context (cfg : Config) (ntfy : PostCall → PostOutcome).

Lemma read_body_no_calls (request : Request) : (read_body request).1 = [].
Proof.
  unfold read_body. case_match.
  - destruct (json request) as [[]|]; reflexivity.
  - destruct (form request); reflexivity.
Qed.

Lemma respond_no_calls (inbound : Inbound) : (respond inbound).1 = [].
Proof.
  unfold respond, response_priority, JSONResponse.
  destruct (isdigit _); [destruct (py_int _)|]; cbn; try reflexivity;
    destruct (encode_utf8 (title inbound)), (encode_utf8 (message inbound));
    reflexivity.
Qed.

Lemma gotify_message_unfold (request : Request) :
  gotify_message cfg ntfy request =
    match (read_body request).2 with
    | Ok inbound => forward cfg ntfy (resolve_topic cfg (query_token request)) inbound
    | Raise e => ([], Raise e)
    end.
Proof.
  unfold gotify_message. pose proof (read_body_no_calls request) as H.
  destruct (read_body request) as [calls [inbound|e]]; cbn in *; subst; cbn.
  - by destruct (forward _ _ _ _).
  - reflexivity.
Qed.

Lemma forward_unfold (topic : pyval) (inbound : Inbound) :
  forward cfg ntfy topic inbound =
    match message inbound, title inbound with
    | [], [] => ([], Raise (HTTPException 400 (py "Missing title/message")))
    | _, _ =>
        ((publish_of cfg ntfy topic inbound).1,
         match (publish_of cfg ntfy topic inbound).2 with
         | Ok _ => (respond inbound).2
         | Raise e => Raise e
         end)
    end.
Proof.
  unfold forward, publish_of. pose proof (respond_no_calls inbound) as H.
  destruct (message inbound), (title inbound); try reflexivity;
    (destruct (publish_to_ntfy _ _ _ _ _ _ _) as [calls [[]|e]]; cbn;
     [destruct (respond inbound); cbn in *; subst; by rewrite app_nil_r
     |reflexivity]).
Qed.

Lemma gotify_message_calls (request : Request) (call : PostCall) :
  call ∈ (gotify_message cfg ntfy request).1 →
  ∃ inbound,
    read_body request = ([], Ok inbound)
    ∧ (message inbound ≠ [] ∨ title inbound ≠ [])
    ∧ call ∈ (publish_of cfg ntfy (resolve_topic cfg (query_token request)) inbound).1
    ∧ (gotify_message cfg ntfy request).1
      = (publish_of cfg ntfy (resolve_topic cfg (query_token request)) inbound).1.
Proof.
  rewrite gotify_message_unfold. pose proof (read_body_no_calls request) as Hnc.
  destruct (read_body request) as [calls [inbound|e]]; cbn [fst snd] in *;
    subst calls; [|by intros ?%elem_of_nil].
  rewrite forward_unfold.
  intros H. exists inbound. split; [done|].
  set (pub := publish_of cfg ntfy _ inbound) in *. clearbody pub.
  destruct (message inbound), (title inbound); cbn [fst] in *;
    [by apply elem_of_nil in H|..];
    (split; [(by left) || (by right)|split; [exact H|reflexivity]]).
Qed.

Lemma gotify_message_call_shape (request : Request) (call : PostCall) :
  call ∈ (gotify_message cfg ntfy request).1 →
  ∃ inbound auth body,
    read_body request = ([], Ok inbound)
    ∧ (message inbound ≠ [] ∨ title inbound ≠ [])
    ∧ ntfy_auth_header cfg = Ok auth
    ∧ encode_utf8 (match message inbound with
                   | [] => title inbound
                   | _ => message inbound
                   end) = Some body
    ∧ call = the_call cfg (resolve_topic cfg (query_token request))
               (full_title cfg (title inbound))
               (gotify_priority_to_ntfy (priority_val inbound))
               (tags_of cfg (extras inbound)) auth body
    ∧ (gotify_message cfg ntfy request).1 = [call].
Proof.
  intros (inbound & Hread & Hne & Hin & Hcalls)%gotify_message_calls.
  unfold publish_of in *.
  apply publish_to_ntfy_calls in Hin as (auth & body & Hauth & Hbody & Hcall & Hrun).
  exists inbound, auth, body. rewrite Hcalls, Hrun. by repeat split.
Qed.

Lemma gotify_message_publishes (request : Request) (inbound : Inbound)
    (auth : gmap string pystr) (body : list byte) :
  read_body request = ([], Ok inbound) →
  message inbound ≠ [] ∨ title inbound ≠ [] →
  ntfy_auth_header cfg = Ok auth →
  encode_utf8 (match message inbound with
               | [] => title inbound
               | _ => message inbound
               end) = Some body →
  let call := the_call cfg (resolve_topic cfg (query_token request))
                (full_title cfg (title inbound))
                (gotify_priority_to_ntfy (priority_val inbound))
                (tags_of cfg (extras inbound)) auth body in
  gotify_message cfg ntfy request
  = ([call], match classify (ntfy call) with
             | Ok _ => (respond inbound).2
             | Raise e => Raise e
             end).
Proof.
  intros Hread Hne Hauth Hbody call.
  rewrite gotify_message_unfold, Hread. cbn [snd].
  rewrite forward_unfold. unfold publish_of.
  rewrite publish_to_ntfy_unfold, Hauth, Hbody. cbn [fst snd]. fold call.
  destruct (message inbound), (title inbound); try reflexivity.
  by destruct Hne.
Qed.

Lemma gotify_message_ok (request : Request) (calls : list PostCall)
    (resp : GotifyResponse) :
  gotify_message cfg ntfy request = (calls, Ok resp) →
  ∃ inbound call,
    read_body request = ([], Ok inbound)
    ∧ (message inbound ≠ [] ∨ title inbound ≠ [])
    ∧ calls = [call]
    ∧ call ∈ (gotify_message cfg ntfy request).1
    ∧ classify (ntfy call) = Ok tt
    ∧ (respond inbound).2 = Ok resp.
Proof.
  intros Hrun. pose proof (read_body_no_calls request) as Hnc.
  pose proof Hrun as Hrun'. rewrite gotify_message_unfold in Hrun'.
  destruct (read_body request) as [calls0 [inbound|e]] eqn:Hread;
    cbn [fst snd] in *; subst calls0; [|discriminate].
  rewrite forward_unfold in Hrun'. unfold publish_of in Hrun'.
  rewrite publish_to_ntfy_unfold in Hrun'.
  assert (Hne : message inbound ≠ [] ∨ title inbound ≠ []).
  { destruct (message inbound), (title inbound);
      [discriminate|by right|by left|by left]. }
  assert (Hrun'' :
    (let pub := match ntfy_auth_header cfg with
       | Ok auth =>
           match encode_utf8 (match message inbound with
                              | [] => title inbound
                              | _ => message inbound
                              end) with
           | Some body =>
               let call := the_call cfg (resolve_topic cfg (query_token request))
                             (full_title cfg (title inbound))
                             (gotify_priority_to_ntfy (priority_val inbound))
                             (tags_of cfg (extras inbound)) auth body in
               ([call], classify (ntfy call))
           | None => ([], Raise Unhandled)
           end
       | Raise e => ([], Raise e)
       end in
     (pub.1, match pub.2 with Ok _ => (respond inbound).2 | Raise e => Raise e end))
    = (calls, Ok resp)).
  { destruct (message inbound), (title inbound); [by destruct Hne|done..]. }
  clear Hrun'. cbv zeta in Hrun''.
  destruct (ntfy_auth_header cfg) as [auth|e]; [|discriminate].
  destruct (encode_utf8 _) as [body|]; [|discriminate].
  cbn [fst snd] in Hrun''. injection Hrun'' as <- Hresp.
  destruct (classify (ntfy _)) as [[]|e] eqn:Hclass; [|discriminate].
  eexists inbound, _. repeat split; try done.
  rewrite Hrun. apply list_elem_of_here.
Qed.

Lemma respond_ok (inbound : Inbound) (resp : GotifyResponse) :
  (respond inbound).2 = Ok resp →
  resp_id resp = 0 ∧ resp_appid resp = 0
  ∧ resp_title resp = title inbound
  ∧ resp_message resp = message inbound
  ∧ (response_priority (priority_val inbound)).2 = Ok (resp_priority resp).
Proof.
  unfold respond, response_priority, JSONResponse.
  destruct (isdigit _); [destruct (py_int _)|]; cbn; try discriminate;
    destruct (encode_utf8 (title inbound)), (encode_utf8 (message inbound));
    cbn; try discriminate; by intros [= <-].
Qed.

End Handler.

(** ** Topic resolution *)

(** C5. The token is looked up as it comes: a token that is a key of the
    map resolves to the mapped topic, any other token (the empty string
    as well) to the default topic, and a request without a token
    parameter is resolved as the empty token.  Resolution cannot fail:
    whatever the token, a request with content whose credentials and
    text can be encoded makes exactly one call, and every call the
    handler makes goes to the resolved topic. *)
Theorem topic_resolution (cfg : Config) (ntfy : PostCall → PostOutcome) :
  (∀ t X, TOKEN_TOPIC_MAP cfg !! t = Some X → resolve_topic cfg (Some t) = X)
  ∧ (∀ t, TOKEN_TOPIC_MAP cfg !! t = None →
       resolve_topic cfg (Some t) = PyStr (DEFAULT_TOPIC cfg))
  ∧ resolve_topic cfg None = resolve_topic cfg (Some [])
  ∧ (∀ request call, call ∈ (gotify_message cfg ntfy request).1 →
       url call = NTFY_SERVER cfg ++ py "/"
                    ++ py_str (resolve_topic cfg (query_token request)))
  ∧ (∀ request inbound auth body,
       read_body request = ([], Ok inbound) →
       message inbound ≠ [] ∨ title inbound ≠ [] →
       ntfy_auth_header cfg = Ok auth →
       encode_utf8 (match message inbound with
                    | [] => title inbound
                    | _ => message inbound
                    end) = Some body →
       ∃ call, (gotify_message cfg ntfy request).1 = [call]).
Proof.
  repeat split.
  - intros t X H. unfold resolve_topic. by rewrite H.
  - intros t H. unfold resolve_topic. by rewrite H.
  - intros request call
      (inbound & auth & body & _ & _ & _ & _ & -> & _)%gotify_message_call_shape.
    reflexivity.
  - intros request inbound auth body Hread Hne Hauth Hbody.
    erewrite gotify_message_publishes by eassumption. eauto.
Qed.

Lemma topic_resolution_witness :
  resolve_topic sample_config (Some (py "tok")) = PyStr (py "alerts")
  ∧ resolve_topic sample_config (Some (py "nobody"))
    = PyStr (py "monitoring-adapter-info")
  ∧ resolve_topic sample_config (Some []) = PyStr (py "monitoring-adapter-info")
  ∧ (∃ call, (gotify_message sample_config ntfy_accepts
                 (json_request None payload_TM8)).1 = [call]
       ∧ url call = py "https://ntfy.example.com/monitoring-adapter-info").
Proof.
  destruct (topic_resolution sample_config ntfy_accepts) as (Hk & Hd & _ & Hu & _).
  split; [|split; [|split]].
  - apply Hk. by vm_compute.
  - apply (Hd (py "nobody")). by vm_compute.
  - apply (Hd []). by vm_compute.
  - assert (∃ call, (gotify_message sample_config ntfy_accepts
                       (json_request None payload_TM8)).1 = [call]) as [call Hc]
      by (eexists; vm_compute; reflexivity).
    exists call. split; [exact Hc|].
    rewrite (Hu (json_request None payload_TM8) call); [by vm_compute|].
    rewrite Hc. apply list_elem_of_here.
Defined.

(** ** Credentials *)

Section Credentials.

Context (cfg : Config).

Lemma ntfy_auth_header_anonymous :
  NTFY_USERNAME cfg = [] → ntfy_auth_header cfg = Ok ∅.
Proof. unfold ntfy_auth_header. by intros ->. Qed.

Lemma ntfy_auth_header_user (auth : gmap string pystr) :
  NTFY_USERNAME cfg ≠ [] → ntfy_auth_header cfg = Ok auth →
  ∃ bytes,
    encode_utf8 (NTFY_USERNAME cfg ++ py ":" ++ NTFY_PASSWORD cfg) = Some bytes
    ∧ auth = {[ "Authorization"%string := py "Basic " ++ b64encode bytes ]}.
Proof.
  unfold ntfy_auth_header. intros Hne.
  destruct (NTFY_USERNAME cfg) eqn:Hu; [done|]. rewrite <- Hu.
  destruct (encode_utf8 _) as [bytes|]; [|discriminate].
  intros [= <-]. by exists bytes.
Qed.

Lemma password_unused (ntfy : PostCall → PostOutcome) (request : Request)
    (password : pystr) :
  NTFY_USERNAME cfg = [] →
  gotify_message (with_password cfg password) ntfy request
  = gotify_message cfg ntfy request.
Proof.
  intros Hu. rewrite !gotify_message_unfold.
  destruct (read_body request).2 as [inbound|e]; [|reflexivity].
  change (resolve_topic (with_password cfg password))
    with (resolve_topic cfg).
  unfold forward, publish_to_ntfy, ntfy_auth_header. cbn [with_password
    NTFY_SERVER NTFY_USERNAME NTFY_PASSWORD DEFAULT_TOPIC DEFAULT_TAGS
    TITLE_PREFIX TOKEN_TOPIC_MAP]. by rewrite Hu.
Qed.

End Credentials.

(** C7. Without a user name no call of the handler carries an
    Authorization header, and the whole run (its calls with their
    headers, and its outcome) is the same for any two passwords; with a
    user name every call carries
    Authorization: Basic base64(user name ":" password). *)
Theorem authorization_header (cfg : Config) (ntfy : PostCall → PostOutcome)
    (request : Request) :
  (NTFY_USERNAME cfg = [] →
     (∀ call, call ∈ (gotify_message cfg ntfy request).1 →
        headers call !! "Authorization"%string = None)
     ∧ (∀ password1 password2,
          gotify_message (with_password cfg password1) ntfy request
          = gotify_message (with_password cfg password2) ntfy request)
     ∧ (∀ password1 password2,
          headers <$> (gotify_message (with_password cfg password1) ntfy request).1
          = headers <$> (gotify_message (with_password cfg password2) ntfy request).1))
  ∧ (NTFY_USERNAME cfg ≠ [] →
     ∀ call, call ∈ (gotify_message cfg ntfy request).1 →
       ∃ bytes,
         encode_utf8 (NTFY_USERNAME cfg ++ py ":" ++ NTFY_PASSWORD cfg) = Some bytes
         ∧ headers call !! "Authorization"%string
           = Some (py "Basic " ++ b64encode bytes)).
Proof.
  split.
  - intros Hu.
    assert (Hsame : ∀ password1 password2,
      gotify_message (with_password cfg password1) ntfy request
      = gotify_message (with_password cfg password2) ntfy request).
    { intros p1 p2. by rewrite !password_unused. }
    split; [|split; [exact Hsame|by intros p1 p2; rewrite (Hsame p1 p2)]].
    intros call
      (inbound & auth & body & _ & _ & Hauth & _ & -> & _)%gotify_message_call_shape.
    rewrite ntfy_auth_header_anonymous in Hauth by done. injection Hauth as <-.
    cbn. rewrite lookup_union_r by apply lookup_empty.
    apply own_headers_lookup.
  - intros Hu call
      (inbound & auth & body & _ & _ & Hauth & _ & -> & _)%gotify_message_call_shape.
    destruct (ntfy_auth_header_user cfg auth Hu Hauth) as (bytes & Hbytes & ->).
    exists bytes. split; [done|]. cbn.
    apply lookup_union_Some_l, lookup_singleton_eq.
Qed.

Lemma authorization_header_witness :
  (∃ call,
     (gotify_message anonymous_config ntfy_accepts
        (json_request (Some (py "tok")) payload_TM8)).1 = [call]
     ∧ headers call !! "Authorization"%string = None)
  ∧ (∃ call,
       (gotify_message sample_config ntfy_accepts
          (json_request (Some (py "tok")) payload_TM8)).1 = [call]
       ∧ headers call !! "Authorization"%string
         = Some (py "Basic dXNlcjpwYXNz")).
Proof.
  split.
  - assert (∃ call, (gotify_message anonymous_config ntfy_accepts
                       (json_request (Some (py "tok")) payload_TM8)).1 = [call])
      as [call Hc] by (eexists; vm_compute; reflexivity).
    exists call. split; [exact Hc|].
    apply (proj1 (proj1 (authorization_header anonymous_config ntfy_accepts
             (json_request (Some (py "tok")) payload_TM8)) eq_refl)).
    rewrite Hc. apply list_elem_of_here.
  - assert (∃ call, (gotify_message sample_config ntfy_accepts
                       (json_request (Some (py "tok")) payload_TM8)).1 = [call])
      as [call Hc] by (eexists; vm_compute; reflexivity).
    exists call. split; [exact Hc|].
    destruct (proj2 (authorization_header sample_config ntfy_accepts
                (json_request (Some (py "tok")) payload_TM8))
                ltac:(discriminate) call) as (bytes & Hbytes & Hh).
    { rewrite Hc. apply list_elem_of_here. }
    etrans; [exact Hh|].
    vm_compute in Hbytes. injection Hbytes as <-. by vm_compute.
Defined.

(** ** Missing content *)

(** C3. When the parsed title and message are both empty the handler
    raises 400 "Missing title/message" and makes no call; when one of
    them is not empty it raises no 400 at all. *)
Theorem missing_content (cfg : Config) (ntfy : PostCall → PostOutcome)
    (request : Request) (inbound : Inbound) :
  read_body request = ([], Ok inbound) →
  (title inbound = [] → message inbound = [] →
     gotify_message cfg ntfy request
     = ([], Raise (HTTPException 400 (py "Missing title/message"))))
  ∧ (title inbound ≠ [] ∨ message inbound ≠ [] →
     ∀ detail, (gotify_message cfg ntfy request).2 ≠ Raise (HTTPException 400 detail)).
Proof.
  intros Hread. rewrite gotify_message_unfold, Hread. cbn [snd].
  rewrite forward_unfold. split.
  - by intros -> ->.
  - intros Hne detail. unfold publish_of. rewrite publish_to_ntfy_unfold.
    assert (Hpub : ∀ pub : IO unit,
      (∀ d, pub.2 ≠ Raise (HTTPException 400 d)) →
      (pub.1, match pub.2 with
              | Ok _ => (respond inbound).2
              | Raise e => Raise e
              end).2 ≠ Raise (HTTPException 400 detail)).
    { intros [calls [[]|e]] H; cbn in *; [|by intros [= ->]; eapply H].
      unfold respond, response_priority, JSONResponse.
      destruct (isdigit _); [destruct (py_int _)|]; cbn; try discriminate;
        destruct (encode_utf8 (title inbound)), (encode_utf8 (message inbound));
        discriminate. }
    destruct (message inbound), (title inbound);
      [by destruct Hne|apply Hpub..]; intros d;
      (destruct (ntfy_auth_header cfg) as [auth|e] eqn:Hauth;
       [|apply auth_header_raises in Hauth as ->; discriminate]);
      (destruct (encode_utf8 _); [|discriminate]); cbn [snd];
      (destruct (ntfy _) as [st text|e|]; cbn; try discriminate;
       destruct (400 <=? st); discriminate).
Qed.

Lemma missing_content_witness :
  gotify_message sample_config ntfy_accepts (json_request (Some (py "tok")) ∅)
  = ([], Raise (HTTPException 400 (py "Missing title/message")))
  ∧ (gotify_message sample_config ntfy_forbids
       (json_request (Some (py "tok")) payload_TM8)).2
    ≠ Raise (HTTPException 400 (py "Missing title/message")).
Proof.
  split.
  - by apply (missing_content sample_config ntfy_accepts
                (json_request (Some (py "tok")) ∅)
                {| title := []; message := []; priority_val := PyNone;
                   extras := None |}).
  - apply (missing_content sample_config ntfy_forbids
             (json_request (Some (py "tok")) payload_TM8)
             {| title := py "T"; message := py "M"; priority_val := PyInt 8;
                extras := None |}); [by vm_compute|by left].
Defined.

(** ** Digits *)

Section Digits.

Lemma isdigit_all (s : pystr) :
  isdigit s = true → forallb Py_UNICODE_ISDIGIT s = true.
Proof. by destruct s. Qed.

Lemma isdigit_elem (s : pystr) (c : codepoint) :
  c ∈ s → Py_UNICODE_ISDIGIT c = false → isdigit s = false.
Proof.
  intros Hin Hc. destruct (isdigit s) eqn:Hs; [|reflexivity].
  apply isdigit_all in Hs. rewrite forallb_forall in Hs.
  apply list_elem_of_In, Hs in Hin. congruence.
Qed.

Lemma string_of_uint_digits (d : Decimal.uint) :
  forallb Py_UNICODE_ISDIGIT (py (NilEmpty.string_of_uint d)) = true.
Proof. induction d; cbn; try reflexivity; exact IHd. Qed.

Lemma isdigit_string_of_uint (d : Decimal.uint) :
  isdigit (py (NilZero.string_of_uint d)) = true.
Proof.
  destruct d; try reflexivity; exact (string_of_uint_digits _).
Qed.

(** [str(z).isdigit()] holds exactly for the integers z ≥ 0. *)
Lemma isdigit_str_of_int (z : Z) : isdigit (str_of_int z) = (0 <=? z).
Proof.
  destruct z as [|p|p]; [reflexivity|apply isdigit_string_of_uint|].
  unfold str_of_int. cbn [Z.to_int NilZero.string_of_int].
  apply isdigit_elem with (c := 45%N); [|reflexivity]. left.
Qed.

(** [str(x)] of a float never consists of digits only. *)
Lemma isdigit_float_repr (x : spec_float) (digits : pystr) (decpt : Z) :
  isdigit (float_repr x digits decpt) = false.
Proof.
  destruct x as [s|s| |s m e]; try (by destruct s); [reflexivity|].
  unfold float_repr.
  destruct ((decpt <=? -4) || (16 <? decpt)).
  - apply isdigit_elem with (c := 101%N); [|reflexivity].
    change (py "e") with [101%N]. set_solver.
  - apply isdigit_elem with (c := 46%N); [|reflexivity].
    change (py "0.") with [48%N; 46%N]. change (py ".0") with [46%N; 48%N].
    change (py ".") with [46%N].
    repeat case_match; set_solver.
Qed.

(** [int(raw)] is taken for the answer exactly when [raw] is an
    integer z ≥ 0 or a text of digits. *)
Lemma isdigit_py_str (raw : pyval) :
  isdigit (py_str raw) =
    match raw with
    | PyInt z => 0 <=? z
    | PyStr s | PyObject s => isdigit s
    | _ => false
    end.
Proof.
  destruct raw as [|[]|z|x ds dp|s|items inner|d inner|text]; try reflexivity.
  - apply isdigit_str_of_int.
  - apply isdigit_float_repr.
Qed.

End Digits.

(** ** The answer *)

(** Digits that are no decimal digits pass [isdigit] but not [int]: the
    mapper falls back to "3", the answer is never built. *)
Lemma response_priority_superscript :
  gotify_priority_to_ntfy (PyStr [0xb2%N]) = py "3"
  ∧ response_priority (PyStr [0xb2%N]) = raise Unhandled.
Proof. by vm_compute. Qed.

(** C10, as the code has it.  In a 200 answer the priority is
    [int(raw)] when [str(raw)] consists of digits and 0 otherwise: an
    integer z ≥ 0 is echoed, a negative integer and a float give 0, also
    where the mapper took [int(raw)] for the outbound priority.  The
    echo therefore equals [int(raw)] exactly when [str(raw)] consists of
    digits or [int(raw)] is 0. *)
Theorem response_priority_echo (cfg : Config) (ntfy : PostCall → PostOutcome)
    (request : Request) (inbound : Inbound) (calls : list PostCall)
    (resp : GotifyResponse) :
  read_body request = ([], Ok inbound) →
  gotify_message cfg ntfy request = (calls, Ok resp) →
  let raw := priority_val inbound in
  (isdigit (py_str raw) = true → py_int raw = Some (resp_priority resp))
  ∧ (isdigit (py_str raw) = false → resp_priority resp = 0)
  ∧ (∀ z, raw = PyInt z → 0 ≤ z → resp_priority resp = z)
  ∧ (∀ z, raw = PyInt z → z < 0 →
       resp_priority resp = 0 ∧ py_int raw = Some z
       ∧ gotify_priority_to_ntfy raw = py "1")
  ∧ (∀ x digits decpt, raw = PyFloat x digits decpt → resp_priority resp = 0)
  ∧ (py_int raw = Some (resp_priority resp)
     ↔ isdigit (py_str raw) = true ∨ py_int raw = Some 0).
Proof.
  intros Hread (inbound' & call & Hread' & _ & _ & _ & _ & Hresp)%gotify_message_ok raw.
  rewrite Hread in Hread'. injection Hread' as <-.
  apply respond_ok in Hresp as (_ & _ & _ & _ & Hprio).
  fold raw in Hprio. unfold response_priority in Hprio.
  assert (Hyes : isdigit (py_str raw) = true → py_int raw = Some (resp_priority resp)).
  { intros H. rewrite H in Hprio. destruct (py_int raw); [|discriminate].
    cbn in Hprio. congruence. }
  assert (Hno : isdigit (py_str raw) = false → resp_priority resp = 0).
  { intros H. rewrite H in Hprio. cbn in Hprio. congruence. }
  repeat split; try assumption.
  - intros z Hz Hpos. rewrite Hz in Hyes. cbn [py_int] in Hyes.
    rewrite isdigit_py_str in Hyes.
    assert (Some z = Some (resp_priority resp)) by (apply Hyes; lia).
    congruence.
  - apply Hno. rewrite H, isdigit_py_str. lia.
  - by rewrite H.
  - rewrite H, band_of_int. by destruct (Z.leb_spec z 0); [|lia].
  - intros x digits decpt Hx. apply Hno. by rewrite Hx, isdigit_py_str.
  - intros Hecho. destruct (isdigit (py_str raw)) eqn:Hdigits; [by left|].
    right. by rewrite Hecho, Hno.
  - intros [Hdigits|Hzero]; [by apply Hyes|].
    destruct (isdigit (py_str raw)) eqn:Hdigits; [by apply Hyes|].
    by rewrite Hno.
Qed.

Lemma response_priority_echo_witness :
  (∃ calls resp,
     gotify_message sample_config ntfy_accepts
       (json_request None (payload_T (PyInt (-5)))) = (calls, Ok resp)
     ∧ resp_priority resp = 0
     ∧ (headers <$> calls) !! 0%nat ≫= (.!! "Priority"%string) = Some (py "1"))
  ∧ (∃ calls resp,
       gotify_message sample_config ntfy_accepts
         (json_request None (payload_T float_8_5)) = (calls, Ok resp)
       ∧ resp_priority resp = 0
       ∧ (headers <$> calls) !! 0%nat ≫= (.!! "Priority"%string) = Some (py "5"))
  ∧ (∃ calls resp,
       gotify_message sample_config ntfy_accepts
         (json_request None (payload_T (PyInt 8))) = (calls, Ok resp)
       ∧ resp_priority resp = 8).
Proof.
  split; [|split].
  - assert (∃ calls resp,
      gotify_message sample_config ntfy_accepts
        (json_request None (payload_T (PyInt (-5)))) = (calls, Ok resp))
      as (calls & resp & Hrun) by (do 2 eexists; vm_compute; reflexivity).
    exists calls, resp. split; [exact Hrun|]. split.
    + destruct (response_priority_echo sample_config ntfy_accepts
                  (json_request None (payload_T (PyInt (-5))))
                  {| title := py "T"; message := []; priority_val := PyInt (-5);
                     extras := None |} calls resp ltac:(by vm_compute) Hrun)
        as (_ & _ & _ & Hneg & _).
      apply (Hneg (-5)); [reflexivity|lia].
    + vm_compute in Hrun. injection Hrun as <- _. by vm_compute.
  - assert (∃ calls resp,
      gotify_message sample_config ntfy_accepts
        (json_request None (payload_T float_8_5)) = (calls, Ok resp))
      as (calls & resp & Hrun) by (do 2 eexists; vm_compute; reflexivity).
    exists calls, resp. split; [exact Hrun|]. split.
    + destruct (response_priority_echo sample_config ntfy_accepts
                  (json_request None (payload_T float_8_5))
                  {| title := py "T"; message := []; priority_val := float_8_5;
                     extras := None |} calls resp ltac:(by vm_compute) Hrun)
        as (_ & _ & _ & _ & Hfloat & _).
      by eapply Hfloat.
    + vm_compute in Hrun. injection Hrun as <- _. by vm_compute.
  - assert (∃ calls resp,
      gotify_message sample_config ntfy_accepts
        (json_request None (payload_T (PyInt 8))) = (calls, Ok resp))
      as (calls & resp & Hrun) by (do 2 eexists; vm_compute; reflexivity).
    exists calls, resp. split; [exact Hrun|].
    destruct (response_priority_echo sample_config ntfy_accepts
                (json_request None (payload_T (PyInt 8)))
                {| title := py "T"; message := []; priority_val := PyInt 8;
                   extras := None |} calls resp ltac:(by vm_compute) Hrun)
      as (_ & _ & Hpos & _).
    apply (Hpos 8); [reflexivity|lia].
Defined.

(** C10, as the specification states it, fails for a value whose text
    has no digit and whose [int] is 0: for the JSON priority false the
    answer is 200 and echoes 0, which is [int(False)], although "False"
    does not consist of digits. *)
Lemma echo_is_int_of_false :
  ∃ calls resp,
    read_body (json_request None (payload_T (PyBool false)))
    = ([], Ok {| title := py "T"; message := []; priority_val := PyBool false;
                 extras := None |})
    ∧ gotify_message sample_config ntfy_accepts
        (json_request None (payload_T (PyBool false))) = (calls, Ok resp)
    ∧ isdigit (py_str (PyBool false)) = false
    ∧ py_int (PyBool false) = Some (resp_priority resp)
    ∧ ¬ (py_int (PyBool false) = Some (resp_priority resp)
         ↔ isdigit (py_str (PyBool false)) = true).
Proof.
  do 2 eexists. split; [by vm_compute|].
  split; [vm_compute; reflexivity|].
  split; [by vm_compute|]. split; [by vm_compute|].
  intros [Hdigits _]. specialize (Hdigits ltac:(by vm_compute)).
  vm_compute in Hdigits. discriminate.
Qed.

(** C9. When the parsed message is empty and the title is not, the body
    of every call is the UTF-8 text of the title (hence not empty), and a
    200 answer, which comes with exactly one such call, still carries
    the empty message. *)
Theorem empty_message_sends_title (cfg : Config) (ntfy : PostCall → PostOutcome)
    (request : Request) (inbound : Inbound) :
  read_body request = ([], Ok inbound) →
  message inbound = [] → title inbound ≠ [] →
  (∀ call, call ∈ (gotify_message cfg ntfy request).1 →
     encode_utf8 (title inbound) = Some (data call) ∧ data call ≠ [])
  ∧ (∀ calls resp, gotify_message cfg ntfy request = (calls, Ok resp) →
       resp_message resp = [] ∧ resp_title resp = title inbound
       ∧ ∃ call, calls = [call] ∧ encode_utf8 (title inbound) = Some (data call)).
Proof.
  intros Hread Hmsg Htitle.
  assert (Hcall : ∀ call, call ∈ (gotify_message cfg ntfy request).1 →
            encode_utf8 (title inbound) = Some (data call) ∧ data call ≠ []).
  { intros call
      (inbound' & auth & body & Hread' & _ & _ & Hbody & -> & _)%gotify_message_call_shape.
    rewrite Hread in Hread'. injection Hread' as <-.
    rewrite Hmsg in Hbody. cbn [data the_call]. split; [exact Hbody|].
    intros ->. destruct (title inbound) as [|c r]; [done|].
    cbn in Hbody. unfold utf8_char in Hbody.
    repeat case_match; simplify_eq. }
  split; [exact Hcall|].
  intros calls resp Hrun.
  pose proof Hrun as (inbound' & call & Hread' & _ & -> & Hin & _ & Hresp)%gotify_message_ok.
  rewrite Hread in Hread'. injection Hread' as <-.
  apply respond_ok in Hresp as (_ & _ & Ht & Hm & _).
  rewrite Hm, Ht, Hmsg. repeat split. exists call. split; [done|].
  by apply Hcall.
Qed.

Lemma empty_message_sends_title_witness :
  ∃ call resp,
    gotify_message sample_config ntfy_accepts
      (json_request None (payload_T (PyInt 8))) = ([call], Ok resp)
    ∧ data call = ["T"%byte] ∧ resp_message resp = [].
Proof.
  assert (∃ call resp,
    gotify_message sample_config ntfy_accepts
      (json_request None (payload_T (PyInt 8))) = ([call], Ok resp))
    as (call & resp & Hrun) by (do 2 eexists; vm_compute; reflexivity).
  exists call, resp. split; [exact Hrun|].
  destruct (empty_message_sends_title sample_config ntfy_accepts
              (json_request None (payload_T (PyInt 8)))
              {| title := py "T"; message := []; priority_val := PyInt 8;
                 extras := None |} ltac:(by vm_compute) eq_refl ltac:(discriminate))
    as [Hcall Hresp].
  split.
  - destruct (Hcall call) as [Hdata _]; [rewrite Hrun; apply list_elem_of_here|].
    assert (Some ["T"%byte] = Some (data call)) as [= <-] by exact Hdata.
    reflexivity.
  - by destruct (Hresp _ _ Hrun) as [-> _].
Defined.

(** ** The title header *)

Section Strip.

Lemma lstrip_snoc (p : pystr) (c : codepoint) :
  Py_UNICODE_ISSPACE c = false → lstrip (p ++ [c]) = lstrip p ++ [c].
Proof.
  intros Hc. induction p as [|a p IH]; cbn; [by rewrite Hc|].
  by destruct (Py_UNICODE_ISSPACE a).
Qed.

(** Before a title that ends in a visible character, [strip] removes
    the leading white space of the prefix and nothing else. *)
Lemma strip_snoc (p : pystr) (c : codepoint) :
  Py_UNICODE_ISSPACE c = false → strip (p ++ [c]) = lstrip p ++ [c].
Proof.
  intros Hc. unfold strip. rewrite lstrip_snoc by done.
  rewrite rev_app_distr. cbn. rewrite Hc. cbn. by rewrite rev_involutive.
Qed.

End Strip.

(** C2, as the code has it.  Posting
    [{"title": "T", "message": "M", "priority": 8}] with a token mapped
    to X, under credentials that can be encoded, makes exactly one POST
    to baseUrl/X with Priority: 5, body "M" and a Title header that is
    prefix + "T" stripped of surrounding white space, that is the prefix
    without its leading white space followed by "T" (prefix + "T" itself
    when the prefix does not begin with white space); when ntfy answers
    with a status below 400 the answer is 200 and echoes title "T",
    message "M", priority 8. *)
Theorem post_title_message_priority (cfg : Config) (ntfy : PostCall → PostOutcome)
    (request : Request) (token : pystr) (X : pyval)
    (payload : gmap pystr pyval) (inner : pystr) (auth : gmap string pystr) :
  query_token request = Some token →
  TOKEN_TOPIC_MAP cfg !! token = Some X →
  contains "application/json"
    (lower (match content_type request with Some h => h | None => "" end)) = true →
  json request = Ok (PyDict payload inner) →
  payload !! py "title" = Some (PyStr (py "T")) →
  payload !! py "message" = Some (PyStr (py "M")) →
  payload !! py "priority" = Some (PyInt 8) →
  ntfy_auth_header cfg = Ok auth →
  ∃ call,
    (gotify_message cfg ntfy request).1 = [call]
    ∧ url call = NTFY_SERVER cfg ++ py "/" ++ py_str X
    ∧ headers call !! "Priority"%string = Some (py "5")
    ∧ headers call !! "Title"%string = Some (strip (TITLE_PREFIX cfg ++ py "T"))
    ∧ strip (TITLE_PREFIX cfg ++ py "T") = lstrip (TITLE_PREFIX cfg) ++ py "T"
    ∧ (lstrip (TITLE_PREFIX cfg) = TITLE_PREFIX cfg →
       headers call !! "Title"%string = Some (TITLE_PREFIX cfg ++ py "T"))
    ∧ data call = ["M"%byte]
    ∧ (∀ status text, ntfy call = Response status text → status < 400 →
         (gotify_message cfg ntfy request).2
         = Ok {| resp_id := 0; resp_appid := 0; resp_title := py "T";
                 resp_message := py "M"; resp_priority := 8 |}).
Proof.
  intros Htoken Hmap Hjson Hpayload Htitle Hmessage Hpriority Hauth.
  assert (Hread : ∃ ex, read_body request
            = ([], Ok {| title := py "T"; message := py "M";
                         priority_val := PyInt 8; extras := ex |})).
  { unfold read_body. rewrite Hjson, Hpayload.
    unfold mbind, IO_bind, bind, lift. rewrite Htitle, Hmessage, Hpriority.
    cbn. eauto. }
  destruct Hread as [ex Hread].
  pose proof (gotify_message_publishes cfg ntfy request _ auth ["M"%byte] Hread
                ltac:(by left) Hauth eq_refl) as Hrun.
  cbv zeta in Hrun. cbn [title message priority_val extras] in Hrun.
  set (call := the_call cfg (resolve_topic cfg (query_token request))
                 (full_title cfg (py "T")) (gotify_priority_to_ntfy (PyInt 8))
                 (tags_of cfg ex) auth ["M"%byte]) in *.
  assert (Hstrip : strip (TITLE_PREFIX cfg ++ py "T")
                   = lstrip (TITLE_PREFIX cfg) ++ py "T")
    by (by apply strip_snoc).
  assert (Hhead : headers call !! "Title"%string
                  = Some (strip (TITLE_PREFIX cfg ++ py "T"))).
  { subst call. cbn [headers the_call].
    rewrite lookup_union_r by (by eapply auth_header_keys).
    destruct (own_headers_lookup (full_title cfg (py "T"))
                (gotify_priority_to_ntfy (PyInt 8)) (tags_of cfg ex))
      as (_ & _ & -> & _).
    change (full_title cfg (py "T")) with (strip (TITLE_PREFIX cfg ++ py "T")).
    rewrite Hstrip. by destruct (lstrip (TITLE_PREFIX cfg)). }
  exists call. rewrite Hrun. cbn [fst snd].
  split; [reflexivity|]. split.
  { subst call. cbn [url the_call]. unfold resolve_topic. by rewrite Htoken, Hmap. }
  split.
  { subst call. cbn [headers the_call].
    rewrite lookup_union_r by (by eapply auth_header_keys).
    apply own_headers_lookup. }
  split; [exact Hhead|]. split; [exact Hstrip|]. split.
  { intros Hprefix. etrans; [exact Hhead|]. by rewrite Hstrip, Hprefix. }
  split; [reflexivity|].
  intros status text Hanswer Hstatus. rewrite Hanswer. cbn [classify].
  destruct (Z.leb_spec 400 status); [lia|]. reflexivity.
Qed.

Lemma post_title_message_priority_witness :
  ∃ call,
    (gotify_message sample_config ntfy_accepts
       (json_request (Some (py "tok")) payload_TM8)).1 = [call]
    ∧ url call = py "https://ntfy.example.com/alerts"
    ∧ headers call !! "Priority"%string = Some (py "5")
    ∧ headers call !! "Title"%string = Some (py "[gotify] T")
    ∧ data call = ["M"%byte]
    ∧ (gotify_message sample_config ntfy_accepts
         (json_request (Some (py "tok")) payload_TM8)).2
      = Ok {| resp_id := 0; resp_appid := 0; resp_title := py "T";
              resp_message := py "M"; resp_priority := 8 |}.
Proof.
  assert (∃ auth, ntfy_auth_header sample_config = Ok auth) as [auth Hauth]
    by (eexists; vm_compute; reflexivity).
  destruct (post_title_message_priority sample_config ntfy_accepts
              (json_request (Some (py "tok")) payload_TM8)
              (py "tok") (PyStr (py "alerts")) payload_TM8 [] auth
              eq_refl ltac:(by vm_compute) eq_refl eq_refl
              ltac:(by vm_compute) ltac:(by vm_compute) ltac:(by vm_compute)
              Hauth)
    as (call & Hcalls & Hurl & Hprio & _ & _ & Htitle & Hdata & Hresp).
  exists call. split; [exact Hcalls|]. split; [exact Hurl|].
  split; [exact Hprio|]. split; [exact (Htitle eq_refl)|].
  split; [exact Hdata|]. apply (Hresp 200 []); [reflexivity|lia].
Defined.

(** C2, as the specification states it, fails where the prefix begins
    with white space: with the prefix " [gotify] " the Title header is
    "[gotify] T", not " [gotify] T". *)
Lemma title_header_is_not_prefix_plus_title :
  TOKEN_TOPIC_MAP indented_config !! py "tok" = Some (PyStr (py "alerts"))
  ∧ (∃ call,
       gotify_message indented_config ntfy_accepts
         (json_request (Some (py "tok")) payload_TM8)
       = ([call], Ok {| resp_id := 0; resp_appid := 0; resp_title := py "T";
                        resp_message := py "M"; resp_priority := 8 |})
       ∧ headers call !! "Title"%string = Some (py "[gotify] T"))
  ∧ ¬ (∃ call,
         (gotify_message indented_config ntfy_accepts
            (json_request (Some (py "tok")) payload_TM8)).1 = [call]
         ∧ url call = NTFY_SERVER indented_config ++ py "/" ++ py "alerts"
         ∧ headers call !! "Priority"%string = Some (py "5")
         ∧ headers call !! "Title"%string
           = Some (TITLE_PREFIX indented_config ++ py "T")
         ∧ data call = ["M"%byte]).
Proof.
  split; [by vm_compute|]. split.
  - eexists. split; [vm_compute; reflexivity|by vm_compute].
  - intros (call & Hcalls & _ & _ & Htitle & _).
    vm_compute in Hcalls. injection Hcalls as <-.
    vm_compute in Htitle. discriminate.
Qed.

Lemma publish_to_ntfy_502_witness :
  (publish_to_ntfy sample_config ntfy_forbids (PyStr (py "alerts"))
     (py "T") (py "M") (py "5") (py "gotify")).2
  = Raise (HTTPException 502 (py "ntfy returned 403: forbidden"))
  ∧ (publish_to_ntfy sample_config ntfy_unreachable (PyStr (py "alerts"))
       (py "T") (py "M") (py "5") (py "gotify")).2
    = Raise (HTTPException 502 (py "Failed to reach ntfy: timed out"))
  ∧ (publish_to_ntfy sample_config ntfy_accepts (PyStr (py "alerts"))
       (py "T") (py "M") (py "5") (py "gotify")).2 = Ok tt.
Proof.
  assert (∃ auth, ntfy_auth_header sample_config = Ok auth) as [auth Hauth]
    by (eexists; vm_compute; reflexivity).
  split; [|split].
  - destruct (publish_to_ntfy_502 sample_config ntfy_forbids (PyStr (py "alerts"))
                (py "T") (py "M") (py "5") (py "gotify"))
      as (_ & _ & Hrejected & _ & Hcall).
    destruct (Hcall _ ["M"%byte] Hauth eq_refl) as [call Hc].
    apply (Hrejected call 403 (py "forbidden"));
      [rewrite Hc; apply list_elem_of_here|reflexivity|lia].
  - destruct (publish_to_ntfy_502 sample_config ntfy_unreachable (PyStr (py "alerts"))
                (py "T") (py "M") (py "5") (py "gotify"))
      as (_ & Hunreachable & _ & _ & Hcall).
    destruct (Hcall _ ["M"%byte] Hauth eq_refl) as [call Hc].
    apply (Hunreachable call (py "timed out"));
      [rewrite Hc; apply list_elem_of_here|reflexivity].
  - destruct (publish_to_ntfy_502 sample_config ntfy_accepts (PyStr (py "alerts"))
                (py "T") (py "M") (py "5") (py "gotify"))
      as (_ & _ & _ & Haccepted & Hcall).
    destruct (Hcall _ ["M"%byte] Hauth eq_refl) as [call Hc].
    apply (Haccepted call 200 []);
      [rewrite Hc; apply list_elem_of_here|reflexivity|lia].
Defined.

Lemma publish_to_ntfy_headers_witness :
  ∃ call,
    (publish_to_ntfy sample_config ntfy_accepts (PyStr (py "alerts"))
       [] (py "M") (py "3") (py "gotify")).1 = [call]
    ∧ headers call !! "Priority"%string = Some (py "3")
    ∧ headers call !! "Tags"%string = Some (py "gotify")
    ∧ headers call !! "Title"%string = None.
Proof.
  assert (∃ call,
    (publish_to_ntfy sample_config ntfy_accepts (PyStr (py "alerts"))
       [] (py "M") (py "3") (py "gotify")).1 = [call]) as [call Hc]
    by (eexists; vm_compute; reflexivity).
  exists call. split; [exact Hc|].
  destruct (publish_to_ntfy_headers sample_config ntfy_accepts (PyStr (py "alerts"))
              [] (py "M") (py "3") (py "gotify") call)
    as (Hp & Ht & _ & Hnone); [rewrite Hc; apply list_elem_of_here|].
  split; [exact Hp|]. split; [exact Ht|exact (Hnone eq_refl)].
Defined.


(** * Further properties *)

(** ** Stripping *)

Section StripFacts.

Lemma lstrip_head (s : pystr) (c : codepoint) :
  head (lstrip s) = Some c → Py_UNICODE_ISSPACE c = false.
Proof.
  induction s as [|a s IH]; cbn; [done|].
  destruct (Py_UNICODE_ISSPACE a) eqn:Ha; [exact IH|].
  cbn. by intros [= <-].
Qed.

Lemma lstrip_suffix (s : pystr) : ∃ p, s = p ++ lstrip s.
Proof.
  induction s as [|a s [p IH]]; cbn; [by exists []|].
  destruct (Py_UNICODE_ISSPACE a); [|by exists []].
  exists (a :: p). cbn. by f_equal.
Qed.

Lemma last_rev (s : pystr) : last (rev s) = head s.
Proof. destruct s as [|a s]; [done|]. cbn. apply last_snoc. Qed.

Lemma head_rev (s : pystr) : head (rev s) = last s.
Proof. by rewrite <- (rev_involutive s) at 2; rewrite last_rev. Qed.

(** What [strip] returns neither begins nor ends with white space. *)
Lemma strip_ends (s : pystr) (c : codepoint) :
  head (strip s) = Some c ∨ last (strip s) = Some c →
  Py_UNICODE_ISSPACE c = false.
Proof.
  unfold strip. intros [H|H].
  - destruct (lstrip_suffix (rev (lstrip s))) as [p Hp].
    apply (f_equal (@rev codepoint)) in Hp.
    rewrite rev_involutive, rev_app_distr in Hp.
    destruct (rev (lstrip (rev (lstrip s)))) as [|a u]; [done|].
    cbn in H. injection H as ->. apply (lstrip_head s). by rewrite Hp.
  - rewrite last_rev in H. by apply lstrip_head in H.
Qed.

Lemma lstrip_char_spec (c : codepoint) (s : pystr) :
  (∃ n, s = repeat c n ++ lstrip_char c s) ∧ head (lstrip_char c s) ≠ Some c.
Proof.
  induction s as [|a s [[n Hn] IH]]; cbn; [by split; [exists 0%nat|]|].
  destruct (N.eqb_spec a c) as [->|Hne].
  - split; [|exact IH]. exists (S n). cbn. by f_equal.
  - split; [by exists 0%nat|]. cbn. congruence.
Qed.

(** [s.rstrip(c)] removes a run of [c] at the end, and all of it. *)
Lemma rstrip_char_spec (c : codepoint) (s : pystr) :
  (∃ n, s = rstrip_char c s ++ repeat c n) ∧ last (rstrip_char c s) ≠ Some c.
Proof.
  unfold rstrip_char.
  destruct (lstrip_char_spec c (rev s)) as [[n Hn] Hhead]. split.
  - exists n. apply (f_equal (@rev codepoint)) in Hn.
    rewrite rev_involutive, rev_app_distr in Hn.
    assert (Hrep : rev (repeat c n) = repeat c n).
    { clear. induction n as [|n IH]; [done|]. cbn. rewrite IH.
      symmetry. apply repeat_cons. }
    by rewrite Hrep in Hn.
  - rewrite last_rev. exact Hhead.
Qed.

End StripFacts.

(** ** Start-up *)

(** X1. The import of the module fails in two cases only: with the
    exception of [read_secret] when [NTFY_PASSWORD_FILE] is set and
    cannot be read, and otherwise with the [RuntimeError] when
    [NTFY_SERVER] is empty once its trailing slashes are removed.  The
    token map plays no part: unreadable, unparsable or of another type,
    it never stops the start-up. *)
Theorem load_config_outcome (host : Host) :
  let server := rstrip_char 47%N (getenv host "NTFY_SERVER" []) in
  let file := getenv host "NTFY_PASSWORD_FILE" [] in
  (load_config host = SecretError ↔ file ≠ [] ∧ read_text host file = None)
  ∧ ((∃ msg, load_config host = RuntimeError msg) ↔
       (file = [] ∨ is_Some (read_text host file)) ∧ server = [])
  ∧ ((∃ cfg, load_config host = Started cfg) ↔
       (file = [] ∨ is_Some (read_text host file)) ∧ server ≠ []).
Proof.
  intros server file. unfold load_config, read_secret. fold server file.
  destruct file as [|c f] eqn:Hfile.
  - destruct server eqn:Hserver; (split; [|split]); split;
      try (intros [? ?]); try discriminate; try done; eauto;
      intros [_ H]; try done.
  - destruct (read_text host (c :: f)) as [text|] eqn:Hread.
    + destruct server eqn:Hserver; (split; [|split]); split;
        try (intros [? ?]); try discriminate; try done; eauto;
        intros [_ H]; try done.
    + (split; [|split]); split; try (intros [? ?]); try discriminate; try done.
      * destruct H as [?|[? ?]]; discriminate.
      * destruct H as [?|[? ?]]; discriminate.
Qed.

Lemma load_config_outcome_witness :
  (∃ cfg, load_config sample_host = Started cfg)
  ∧ (∃ cfg, load_config broken_map_host = Started cfg)
  ∧ load_config (setenv sample_host "NTFY_PASSWORD_FILE" (py "/nowhere"))
    = SecretError
  ∧ (∃ msg, load_config (setenv minimal_host "NTFY_SERVER" (py "//"))
            = RuntimeError msg).
Proof.
  split; [|split; [|split]].
  - apply (load_config_outcome sample_host). split; [right; by eexists|done].
  - apply (load_config_outcome broken_map_host). split; [right; by eexists|done].
  - apply (load_config_outcome
             (setenv sample_host "NTFY_PASSWORD_FILE" (py "/nowhere"))).
    by split.
  - apply (load_config_outcome (setenv minimal_host "NTFY_SERVER" (py "//"))).
    split; [by left|done].
Defined.

Section Startup.

Context (host : Host) (cfg : Config).
Hypothesis Hstarted : load_config host = Started cfg.

Lemma started_fields :
  NTFY_SERVER cfg = rstrip_char 47%N (getenv host "NTFY_SERVER" [])
  ∧ NTFY_USERNAME cfg = getenv host "NTFY_USERNAME" []
  ∧ DEFAULT_TOPIC cfg = getenv host "DEFAULT_TOPIC" (py "monitoring-adapter-info")
  ∧ DEFAULT_TAGS cfg = getenv host "DEFAULT_TAGS" (py "gotify,adapter")
  ∧ TITLE_PREFIX cfg = getenv host "TITLE_PREFIX" []
  ∧ TOKEN_TOPIC_MAP cfg = load_token_topic_map host
  ∧ NTFY_SERVER cfg ≠ []
  ∧ match getenv host "NTFY_PASSWORD_FILE" [] with
    | [] => NTFY_PASSWORD cfg = getenv host "NTFY_PASSWORD" []
    | file => ∃ text, read_text host file = Some text
                ∧ NTFY_PASSWORD cfg = strip text
    end.
Proof.
  revert Hstarted. unfold load_config, read_secret.
  destruct (getenv host "NTFY_PASSWORD_FILE" []) as [|c f].
  - destruct (rstrip_char _ _); [discriminate|].
    intros [= <-]. by repeat split.
  - destruct (read_text host (c :: f)) as [text|]; [|discriminate].
    destruct (rstrip_char _ _); [discriminate|].
    intros [= <-]. repeat split; eauto.
Qed.

End Startup.

(** X2. The base URL the module keeps is not empty and has lost every
    trailing slash of [NTFY_SERVER] (and nothing else), so each outbound
    URL is that base, one slash, and the topic. *)
Theorem loaded_server_has_no_trailing_slash (host : Host) (cfg : Config) :
  load_config host = Started cfg →
  NTFY_SERVER cfg ≠ []
  ∧ last (NTFY_SERVER cfg) ≠ Some 47%N
  ∧ (∃ n, getenv host "NTFY_SERVER" [] = NTFY_SERVER cfg ++ repeat 47%N n)
  ∧ (∀ ntfy request call, call ∈ (gotify_message cfg ntfy request).1 →
       url call = NTFY_SERVER cfg ++ [47%N]
                    ++ py_str (resolve_topic cfg (query_token request))).
Proof.
  intros Hstarted.
  destruct (started_fields host cfg Hstarted) as (Hs & _ & _ & _ & _ & _ & Hne & _).
  destruct (rstrip_char_spec 47%N (getenv host "NTFY_SERVER" [])) as [Hrun Hlast].
  rewrite <- Hs in Hrun, Hlast. repeat split; try done.
  intros ntfy request call
    (inbound & auth & body & _ & _ & _ & _ & -> & _)%gotify_message_call_shape.
  reflexivity.
Qed.

Lemma loaded_server_has_no_trailing_slash_witness :
  ∃ cfg, load_config sample_host = Started cfg
    ∧ NTFY_SERVER cfg = py "https://ntfy.example.com"
    ∧ last (NTFY_SERVER cfg) ≠ Some 47%N.
Proof.
  assert (∃ cfg, load_config sample_host = Started cfg) as [cfg Hcfg]
    by (eexists; vm_compute; reflexivity).
  exists cfg. split; [exact Hcfg|].
  destruct (loaded_server_has_no_trailing_slash sample_host cfg Hcfg)
    as (_ & Hlast & _ & _).
  split; [|exact Hlast].
  vm_compute in Hcfg. by injection Hcfg as <-.
Defined.

(** X3. A token map that cannot be read, cannot be parsed or is no JSON
    object leaves the map empty, so that every token, and a missing one,
    resolves to the default topic. *)
Theorem malformed_token_map_resolves_to_default (host : Host) (cfg : Config) :
  load_config host = Started cfg →
  (∀ text d inner, token_map_text host = Some text →
     json_loads host text ≠ Some (PyDict d inner)) →
  TOKEN_TOPIC_MAP cfg = ∅
  ∧ ∀ token, resolve_topic cfg token = PyStr (DEFAULT_TOPIC cfg).
Proof.
  intros Hstarted Hbad.
  destruct (started_fields host cfg Hstarted) as (_ & _ & _ & _ & _ & Hmap & _).
  assert (Hempty : TOKEN_TOPIC_MAP cfg = ∅).
  { rewrite Hmap. unfold load_token_topic_map.
    destruct (token_map_text host) as [text|] eqn:Htext; [|done].
    destruct (json_loads host text) as [[]|] eqn:Hjson; try done.
    by destruct (Hbad _ _ _ eq_refl Hjson). }
  split; [exact Hempty|].
  intros token. unfold resolve_topic. by rewrite Hempty, lookup_empty.
Qed.

Lemma malformed_token_map_resolves_to_default_witness :
  ∃ cfg, load_config broken_map_host = Started cfg
    ∧ resolve_topic cfg (Some (py "tok")) = PyStr (py "monitoring-adapter-info").
Proof.
  assert (∃ cfg, load_config broken_map_host = Started cfg) as [cfg Hcfg]
    by (eexists; vm_compute; reflexivity).
  exists cfg. split; [exact Hcfg|].
  destruct (malformed_token_map_resolves_to_default broken_map_host cfg Hcfg)
    as [_ Hdefault].
  { intros text d inner [= <-]. by vm_compute. }
  rewrite Hdefault. vm_compute in Hcfg. by injection Hcfg as <-.
Defined.

Lemma getenv_setenv_ne (host : Host) (name other : string) (value default : pystr) :
  name ≠ other → getenv (setenv host name value) other default = getenv host other default.
Proof. intros Hne. unfold getenv, setenv. cbn. by rewrite lookup_insert_ne. Qed.

(** X4. A file setting hides the inline one: when [NTFY_PASSWORD_FILE] is
    set, [NTFY_PASSWORD] has no effect on what is loaded, and when
    [TOKEN_TOPIC_MAP_FILE] is set, [TOKEN_TOPIC_MAP] has none. *)
Theorem file_settings_take_precedence (host : Host) (value : pystr) :
  (getenv host "NTFY_PASSWORD_FILE" [] ≠ [] →
     load_config (setenv host "NTFY_PASSWORD" value) = load_config host)
  ∧ (getenv host "TOKEN_TOPIC_MAP_FILE" [] ≠ [] →
     load_config (setenv host "TOKEN_TOPIC_MAP" value) = load_config host).
Proof.
  split; intros Hfile.
  - unfold load_config, load_token_topic_map, token_map_text, read_secret.
    repeat match goal with
      | |- context [getenv (setenv ?h ?n ?v) ?o ?d] =>
          rewrite (getenv_setenv_ne h n o v d) by done
      end.
    cbn [read_text json_loads setenv].
    by destruct (getenv host "NTFY_PASSWORD_FILE" []).
  - unfold load_config, load_token_topic_map, token_map_text, read_secret.
    repeat match goal with
      | |- context [getenv (setenv ?h ?n ?v) ?o ?d] =>
          rewrite (getenv_setenv_ne h n o v d) by done
      end.
    cbn [read_text json_loads setenv].
    by destruct (getenv host "TOKEN_TOPIC_MAP_FILE" []).
Qed.

Lemma file_settings_take_precedence_witness :
  load_config (setenv sample_host "NTFY_PASSWORD" (py "other"))
  = load_config sample_host.
Proof.
  by apply (file_settings_take_precedence sample_host (py "other")).
Defined.

(** X5. A password read from [NTFY_PASSWORD_FILE] is the text of the file
    without the white space around it (the newline at its end), so it
    neither begins nor ends with white space; a password given in
    [NTFY_PASSWORD] is kept as it is. *)
Theorem password_file_is_stripped (host : Host) (cfg : Config) :
  load_config host = Started cfg →
  (getenv host "NTFY_PASSWORD_FILE" [] = [] →
     NTFY_PASSWORD cfg = getenv host "NTFY_PASSWORD" [])
  ∧ (getenv host "NTFY_PASSWORD_FILE" [] ≠ [] →
     (∃ text, read_text host (getenv host "NTFY_PASSWORD_FILE" []) = Some text
        ∧ NTFY_PASSWORD cfg = strip text)
     ∧ ∀ c, head (NTFY_PASSWORD cfg) = Some c ∨ last (NTFY_PASSWORD cfg) = Some c →
         Py_UNICODE_ISSPACE c = false).
Proof.
  intros Hstarted.
  destruct (started_fields host cfg Hstarted) as (_ & _ & _ & _ & _ & _ & _ & Hpw).
  destruct (getenv host "NTFY_PASSWORD_FILE" []) as [|c f]; split; try done.
  intros _. destruct Hpw as (text & Hread & Hpw). split; [eauto|].
  rewrite Hpw. apply strip_ends.
Qed.

Lemma password_file_is_stripped_witness :
  ∃ cfg, load_config sample_host = Started cfg ∧ NTFY_PASSWORD cfg = py "pass".
Proof.
  assert (∃ cfg, load_config sample_host = Started cfg) as [cfg Hcfg]
    by (eexists; vm_compute; reflexivity).
  exists cfg. split; [exact Hcfg|].
  destruct (password_file_is_stripped sample_host cfg Hcfg) as [_ Hfile].
  destruct Hfile as [(text & Hread & ->) _]; [done|].
  injection Hread as <-. by vm_compute.
Defined.

(** X6. Without [NTFY_USERNAME] in the environment (or with an empty one)
    the service never sends an Authorization header, also when a
    password or a password file is configured. *)
Theorem no_username_in_environment_no_authorization (host : Host) (cfg : Config)
    (ntfy : PostCall → PostOutcome) (request : Request) (call : PostCall) :
  load_config host = Started cfg →
  getenv host "NTFY_USERNAME" [] = [] →
  call ∈ (gotify_message cfg ntfy request).1 →
  headers call !! "Authorization"%string = None.
Proof.
  intros Hstarted Huser
    (inbound & auth & body & _ & _ & Hauth & _ & -> & _)%gotify_message_call_shape.
  destruct (started_fields host cfg Hstarted) as (_ & Hu & _).
  rewrite ntfy_auth_header_anonymous in Hauth by congruence.
  injection Hauth as <-. cbn.
  rewrite lookup_union_r by apply lookup_empty. apply own_headers_lookup.
Qed.

Lemma no_username_in_environment_no_authorization_witness :
  ∃ cfg call,
    load_config (setenv sample_host "NTFY_USERNAME" []) = Started cfg
    ∧ (gotify_message cfg ntfy_accepts (json_request None payload_TM8)).1 = [call]
    ∧ headers call !! "Authorization"%string = None.
Proof.
  assert (∃ cfg, load_config (setenv sample_host "NTFY_USERNAME" []) = Started cfg)
    as [cfg Hcfg] by (eexists; vm_compute; reflexivity).
  assert (∃ call, (gotify_message cfg ntfy_accepts
                     (json_request None payload_TM8)).1 = [call]) as [call Hc].
  { vm_compute in Hcfg. injection Hcfg as <-. eexists. vm_compute. reflexivity. }
  exists cfg, call. split; [exact Hcfg|]. split; [exact Hc|].
  apply (no_username_in_environment_no_authorization _ cfg ntfy_accepts
           (json_request None payload_TM8) call Hcfg); [done|].
  rewrite Hc. apply list_elem_of_here.
Defined.

(** ** Calls and outcomes of the handler *)

(** X7. The handler calls ntfy at most once per request, whatever ntfy
    answers (a refused or failed call is not repeated), and always with a
    timeout of 10 seconds. *)
Theorem at_most_one_call (cfg : Config) (ntfy : PostCall → PostOutcome)
    (request : Request) :
  (length (gotify_message cfg ntfy request).1 ≤ 1)%nat
  ∧ ∀ call, call ∈ (gotify_message cfg ntfy request).1 →
      (gotify_message cfg ntfy request).1 = [call] ∧ timeout call = 10.
Proof.
  assert (Hone : ∀ call, call ∈ (gotify_message cfg ntfy request).1 →
            (gotify_message cfg ntfy request).1 = [call] ∧ timeout call = 10).
  { intros call
      (inbound & auth & body & _ & _ & _ & _ & -> & Hcalls)%gotify_message_call_shape.
    by split. }
  split; [|exact Hone].
  destruct (gotify_message cfg ntfy request).1 as [|call calls] eqn:Hcalls;
    [cbn; lia|].
  destruct (Hone call) as [[= ->] _]; [apply list_elem_of_here|]. cbn. lia.
Qed.

(** X8. A 200 answer is given only after ntfy took the message: the run
    made exactly one call and ntfy answered it with a status below 400. *)
Theorem success_means_delivered (cfg : Config) (ntfy : PostCall → PostOutcome)
    (request : Request) (calls : list PostCall) (resp : GotifyResponse) :
  gotify_message cfg ntfy request = (calls, Ok resp) →
  ∃ call status text,
    calls = [call] ∧ ntfy call = Response status text ∧ status < 400.
Proof.
  intros (inbound & call & _ & _ & -> & _ & Hclass & _)%gotify_message_ok.
  exists call. unfold classify in Hclass.
  destruct (ntfy call) as [status text|e|]; try discriminate.
  exists status, text. destruct (Z.leb_spec 400 status); [discriminate|done].
Qed.

Lemma success_means_delivered_witness :
  ∃ call status text,
    (gotify_message sample_config ntfy_accepts
       (json_request None payload_TM8)).1 = [call]
    ∧ ntfy_accepts call = Response status text ∧ status < 400.
Proof.
  assert (∃ calls resp,
    gotify_message sample_config ntfy_accepts (json_request None payload_TM8)
    = (calls, Ok resp)) as (calls & resp & Hrun)
    by (do 2 eexists; vm_compute; reflexivity).
  destruct (success_means_delivered _ _ _ _ _ Hrun)
    as (call & status & text & -> & Hanswer & Hstatus).
  exists call, status, text. by rewrite Hrun.
Defined.

(** X9. Once the body is parsed, the only HTTP errors of the handler are
    400, raised before any call, for a body without title and message,
    and 502, raised after the one call that ntfy failed or refused. *)
Theorem http_errors (cfg : Config) (ntfy : PostCall → PostOutcome)
    (request : Request) (inbound : Inbound) (status : Z) (detail : pystr) :
  read_body request = ([], Ok inbound) →
  (gotify_message cfg ntfy request).2 = Raise (HTTPException status detail) →
  (status = 400 ∧ detail = py "Missing title/message"
   ∧ title inbound = [] ∧ message inbound = []
   ∧ (gotify_message cfg ntfy request).1 = [])
  ∨ (status = 502
     ∧ ∃ call, (gotify_message cfg ntfy request).1 = [call]
         ∧ ((∃ e, ntfy call = RequestException e)
            ∨ ∃ code text, ntfy call = Response code text ∧ 400 ≤ code)).
Proof.
  intros Hread. rewrite gotify_message_unfold, Hread. cbn [snd].
  rewrite forward_unfold. unfold publish_of. rewrite publish_to_ntfy_unfold.
  assert (Hresp : ∀ e, (respond inbound).2 = Raise e → e = Unhandled).
  { unfold respond, response_priority, JSONResponse. intros e.
    destruct (isdigit _); [destruct (py_int _)|]; cbn;
      try (by intros [= <-]);
      destruct (encode_utf8 (title inbound)), (encode_utf8 (message inbound));
      cbn; try discriminate; by intros [= <-]. }
  assert (Hpub : ∀ pub : IO unit,
    match pub.2 with Ok _ => (respond inbound).2 | Raise e => Raise e end
    = Raise (HTTPException status detail) →
    pub.2 = Raise (HTTPException status detail)).
  { intros [calls [[]|e]]; cbn [snd]; [|by intros [= ->]].
    intros H%Hresp. discriminate H. }
  destruct (message inbound) eqn:Hm, (title inbound) eqn:Ht;
    [cbn; intros [= <- <-]; by left|..];
    cbn [fst snd]; intros H%Hpub; right; revert H;
    (destruct (ntfy_auth_header cfg) as [auth|e] eqn:Hauth;
     [|apply auth_header_raises in Hauth as ->; discriminate]);
    (destruct (encode_utf8 _); [|discriminate]); cbn [fst snd];
    (destruct (ntfy _) as [code text|e|] eqn:Hanswer; cbn; try discriminate;
     [destruct (Z.leb_spec 400 code); [|discriminate]|]);
    intros [= <- <-]; (split; [done|]); eexists; (split; [done|]);
    first [left; eexists; exact Hanswer
          |right; do 2 eexists; split; [exact Hanswer|done]].
Qed.

Lemma http_errors_witness :
  (gotify_message sample_config ntfy_forbids (json_request None payload_TM8)).2
  = Raise (HTTPException 502 (py "ntfy returned 403: forbidden"))
  ∧ ∃ call, (gotify_message sample_config ntfy_forbids
               (json_request None payload_TM8)).1 = [call].
Proof.
  assert (Hrun : (gotify_message sample_config ntfy_forbids
                    (json_request None payload_TM8)).2
                 = Raise (HTTPException 502 (py "ntfy returned 403: forbidden")))
    by (by vm_compute).
  split; [exact Hrun|].
  destruct (http_errors sample_config ntfy_forbids (json_request None payload_TM8)
              {| title := py "T"; message := py "M"; priority_val := PyInt 8;
                 extras := None |} _ _ ltac:(by vm_compute) Hrun)
    as [(Hst & _)|(_ & call & Hcalls & _)]; [discriminate|eauto].
Defined.

(** ** Reading the body *)

Section Body.

Context (request : Request).

Lemma read_body_json (payload : gmap pystr pyval) (inner : pystr) :
  is_json request = true → json request = Ok (PyDict payload inner) →
  read_body request
  = ([], Ok {| title := str_or_empty (payload !! py "title");
               message := str_or_empty (payload !! py "message");
               priority_val := get_or_None (payload !! py "priority");
               extras := match get_or_None (payload !! py "extras") with
                         | PyDict d _ => Some d
                         | _ => None
                         end |}).
Proof. unfold is_json, read_body. by intros -> ->. Qed.

Lemma read_body_form (fields : gmap pystr pyval) :
  is_json request = false → form request = Ok fields →
  read_body request
  = ([], Ok {| title := str_or_empty (fields !! py "title");
               message := str_or_empty (fields !! py "message");
               priority_val := get_or_None (fields !! py "priority");
               extras := None |}).
Proof. unfold is_json, read_body. by intros -> ->. Qed.

End Body.

(** X10. A JSON body that is no object (a list, a text, a number, null)
    is refused with 400 "Invalid JSON payload" before anything is sent,
    and an exception of [request.json()] or [request.form()] leaves the
    handler as it is, again with nothing sent. *)
Theorem invalid_payload (cfg : Config) (ntfy : PostCall → PostOutcome)
    (request : Request) :
  (is_json request = true → ∀ payload,
     json request = Ok payload →
     (∀ d inner, payload ≠ PyDict d inner) →
     gotify_message cfg ntfy request
     = ([], Raise (HTTPException 400 (py "Invalid JSON payload"))))
  ∧ (is_json request = true → ∀ e,
       json request = Raise e → gotify_message cfg ntfy request = ([], Raise e))
  ∧ (is_json request = false → ∀ e,
       form request = Raise e → gotify_message cfg ntfy request = ([], Raise e)).
Proof.
  unfold is_json. repeat split; intros Hct.
  - intros payload Hjson Hno. rewrite gotify_message_unfold.
    unfold read_body. rewrite Hct, Hjson. cbn.
    destruct payload; try reflexivity. by destruct (Hno d inner).
  - intros e Hjson. rewrite gotify_message_unfold.
    unfold read_body. by rewrite Hct, Hjson.
  - intros e Hform. rewrite gotify_message_unfold.
    unfold read_body. by rewrite Hct, Hform.
Qed.

Lemma invalid_payload_witness :
  gotify_message sample_config ntfy_accepts
    {| query_token := None; content_type := Some "application/json"%string;
       json := Ok (PyList [PyStr (py "T")] (py "'T'")); form := Raise Unhandled |}
  = ([], Raise (HTTPException 400 (py "Invalid JSON payload"))).
Proof.
  by apply (invalid_payload sample_config ntfy_accepts
    {| query_token := None; content_type := Some "application/json"%string;
       json := Ok (PyList [PyStr (py "T")] (py "'T'")); form := Raise Unhandled |})
    with (payload := PyList [PyStr (py "T")] (py "'T'")).
Defined.

(** X11. Only one reading of the body counts.  With "application/json"
    anywhere in the content type, in any case of letters, the form is
    never looked at; otherwise, and without a content type, the JSON is
    never looked at: two requests that agree on the reading in use are
    handled alike. *)
Theorem body_dispatch (cfg : Config) (ntfy : PostCall → PostOutcome)
    (r1 r2 : Request) :
  query_token r1 = query_token r2 →
  content_type r1 = content_type r2 →
  (is_json r1 = true → json r1 = json r2 →
     gotify_message cfg ntfy r1 = gotify_message cfg ntfy r2)
  ∧ (is_json r1 = false → form r1 = form r2 →
       gotify_message cfg ntfy r1 = gotify_message cfg ntfy r2)
  ∧ (content_type r1 = None → is_json r1 = false).
Proof.
  intros Htoken Hct. unfold is_json. repeat split.
  - intros Hjson Hbody. rewrite !gotify_message_unfold. unfold read_body.
    by rewrite <- Hct, <- Htoken, <- Hbody, Hjson.
  - intros Hjson Hbody. rewrite !gotify_message_unfold. unfold read_body.
    by rewrite <- Hct, <- Htoken, <- Hbody, Hjson.
  - by intros ->.
Qed.

Lemma body_dispatch_witness :
  gotify_message sample_config ntfy_accepts
    {| query_token := None; content_type := Some "Application/JSON; charset=utf-8"%string;
       json := Ok (PyDict payload_TM8 []); form := Raise Unhandled |}
  = gotify_message sample_config ntfy_accepts
      {| query_token := None; content_type := Some "Application/JSON; charset=utf-8"%string;
         json := Ok (PyDict payload_TM8 []); form := Ok ∅ |}.
Proof.
  destruct (body_dispatch sample_config ntfy_accepts
    {| query_token := None; content_type := Some "Application/JSON; charset=utf-8"%string;
       json := Ok (PyDict payload_TM8 []); form := Raise Unhandled |}
    {| query_token := None; content_type := Some "Application/JSON; charset=utf-8"%string;
       json := Ok (PyDict payload_TM8 []); form := Ok ∅ |} eq_refl eq_refl)
    as [Hjson _].
  by apply Hjson.
Defined.

(** ** Headers of the call *)

Lemma gotify_message_headers (cfg : Config) (ntfy : PostCall → PostOutcome)
    (request : Request) (call : PostCall) :
  call ∈ (gotify_message cfg ntfy request).1 →
  ∃ inbound,
    read_body request = ([], Ok inbound)
    ∧ (message inbound ≠ [] ∨ title inbound ≠ [])
    ∧ headers call !! "Priority"%string
      = Some (gotify_priority_to_ntfy (priority_val inbound))
    ∧ headers call !! "Tags"%string = Some (tags_of cfg (extras inbound))
    ∧ headers call !! "Title"%string
      = match full_title cfg (title inbound) with
        | [] => None
        | t => Some t
        end
    ∧ encode_utf8 (match message inbound with
                   | [] => title inbound
                   | _ => message inbound
                   end) = Some (data call).
Proof.
  intros (inbound & auth & body & Hread & Hne & Hauth & Hbody & -> & _)%gotify_message_call_shape.
  exists inbound. cbn [headers data the_call].
  rewrite !lookup_union_r by (by eapply auth_header_keys).
  destruct (own_headers_lookup (full_title cfg (title inbound))
              (gotify_priority_to_ntfy (priority_val inbound))
              (tags_of cfg (extras inbound))) as (Hp & Ht & Hti & _).
  split; [exact Hread|]. split; [exact Hne|]. split; [exact Hp|].
  split; [exact Ht|]. split; [|exact Hbody].
  etrans; [exact Hti|]. by destruct (full_title cfg (title inbound)).
Qed.

(** X12. The Tags header is [DEFAULT_TAGS], followed by ",extras" exactly
    when the body is JSON with a non-empty object under "extras"; a form
    never gets the extra tag, nor does an "extras" that is empty or no
    object. *)
Theorem tags_header (cfg : Config) (ntfy : PostCall → PostOutcome)
    (request : Request) (call : PostCall) :
  call ∈ (gotify_message cfg ntfy request).1 →
  (is_json request = false →
     headers call !! "Tags"%string = Some (DEFAULT_TAGS cfg))
  ∧ (∀ payload inner, is_json request = true →
       json request = Ok (PyDict payload inner) →
       (∀ d i, payload !! py "extras" = Some (PyDict d i) → d ≠ ∅ →
          headers call !! "Tags"%string = Some (DEFAULT_TAGS cfg ++ py ",extras"))
       ∧ ((∀ d i, payload !! py "extras" = Some (PyDict d i) → d = ∅) →
          headers call !! "Tags"%string = Some (DEFAULT_TAGS cfg))).
Proof.
  intros (inbound & Hread & _ & _ & Htags & _)%gotify_message_headers. split.
  - intros Hct. etrans; [exact Htags|].
    destruct (form request) as [fields|e] eqn:Hform.
    + rewrite (read_body_form request fields Hct Hform) in Hread.
      by injection Hread as <-.
    + unfold read_body in Hread. unfold is_json in Hct.
      rewrite Hct, Hform in Hread. discriminate.
  - intros payload inner Hct Hjson.
    rewrite (read_body_json request payload inner Hct Hjson) in Hread.
    injection Hread as <-. cbn [extras] in Htags.
    unfold tags_of, get_or_None in Htags. split.
    + intros d i Hd Hne. etrans; [exact Htags|]. rewrite Hd.
      by rewrite bool_decide_eq_false_2.
    + intros Hd. etrans; [exact Htags|].
      destruct (payload !! py "extras") as [[]|]; try done.
      by rewrite bool_decide_eq_true_2 by eauto.
Qed.

Lemma tags_header_witness :
  ∃ call,
    (gotify_message sample_config ntfy_accepts
       (json_request None payload_M_extras)).1 = [call]
    ∧ headers call !! "Tags"%string = Some (py "gotify,adapter,extras").
Proof.
  assert (∃ call, (gotify_message sample_config ntfy_accepts
                     (json_request None payload_M_extras)).1 = [call])
    as [call Hc] by (eexists; vm_compute; reflexivity).
  exists call. split; [exact Hc|].
  destruct (tags_header sample_config ntfy_accepts
              (json_request None payload_M_extras) call) as [_ Hjson];
    [rewrite Hc; apply list_elem_of_here|].
  destruct (Hjson payload_M_extras [] eq_refl eq_refl) as [Hextras _].
  apply (Hextras {[ py "k" := PyInt 1 ]} (py "'k': 1")); [by vm_compute|].
  intros H. apply (f_equal (λ m : gmap pystr pyval, m !! py "k")) in H.
  by vm_compute in H.
Defined.

(** X13. The Title header never begins or ends with white space, and it
    is left out when the prefix and the title together are blank; it is
    the stripped prefix alone for a message without title. *)
Theorem title_header_is_stripped (cfg : Config) (ntfy : PostCall → PostOutcome)
    (request : Request) (inbound : Inbound) (call : PostCall) :
  read_body request = ([], Ok inbound) →
  call ∈ (gotify_message cfg ntfy request).1 →
  (∀ t, headers call !! "Title"%string = Some t →
     t ≠ [] ∧ t = strip (TITLE_PREFIX cfg ++ title inbound)
     ∧ ∀ c, head t = Some c ∨ last t = Some c → Py_UNICODE_ISSPACE c = false)
  ∧ (headers call !! "Title"%string = None ↔
       strip (TITLE_PREFIX cfg ++ title inbound) = [])
  ∧ (title inbound = [] →
       headers call !! "Title"%string
       = match strip (TITLE_PREFIX cfg) with [] => None | t => Some t end).
Proof.
  intros Hread (inbound' & Hread' & _ & _ & _ & Htitle & _)%gotify_message_headers.
  rewrite Hread in Hread'. injection Hread' as <-.
  assert (Hfull : full_title cfg (title inbound)
                  = strip (TITLE_PREFIX cfg ++ title inbound)).
  { unfold full_title. destruct (title inbound); [|done]. by rewrite app_nil_r. }
  rewrite Hfull in Htitle. split; [|split].
  - intros t Ht. pose proof (eq_trans (eq_sym Ht) Htitle) as Heq.
    destruct (strip (TITLE_PREFIX cfg ++ title inbound)) as [|a r] eqn:Hs;
      [discriminate|].
    injection Heq as ->. split; [done|]. split; [done|].
    rewrite <- Hs. apply strip_ends.
  - split; intros H.
    + pose proof (eq_trans (eq_sym H) Htitle) as Heq.
      by destruct (strip (TITLE_PREFIX cfg ++ title inbound)).
    + etrans; [exact Htitle|]. by rewrite H.
  - intros Ht. etrans; [exact Htitle|]. by rewrite Ht, app_nil_r.
Qed.

Lemma title_header_is_stripped_witness :
  ∃ call,
    (gotify_message indented_config ntfy_accepts
       (json_request None payload_M_extras)).1 = [call]
    ∧ headers call !! "Title"%string = Some (py "[gotify]").
Proof.
  assert (∃ call, (gotify_message indented_config ntfy_accepts
                     (json_request None payload_M_extras)).1 = [call])
    as [call Hc] by (eexists; vm_compute; reflexivity).
  exists call. split; [exact Hc|].
  destruct (title_header_is_stripped indented_config ntfy_accepts
              (json_request None payload_M_extras)
              {| title := []; message := py "M"; priority_val := PyNone;
                 extras := Some {[ py "k" := PyInt 1 ]} |} call)
    as (_ & _ & Hprefix); [by vm_compute|rewrite Hc; apply list_elem_of_here|].
  by apply Hprefix.
Defined.

(** X14. The Priority header of every call is one of "1".."5", the band of
    the priority of the body; a body without a priority gives "3". *)
Theorem priority_header (cfg : Config) (ntfy : PostCall → PostOutcome)
    (request : Request) (inbound : Inbound) (call : PostCall) :
  read_body request = ([], Ok inbound) →
  call ∈ (gotify_message cfg ntfy request).1 →
  headers call !! "Priority"%string
  = Some (gotify_priority_to_ntfy (priority_val inbound))
  ∧ gotify_priority_to_ntfy (priority_val inbound)
    ∈ map py ["1"; "2"; "3"; "4"; "5"]%string
  ∧ (∀ payload inner, is_json request = true →
       json request = Ok (PyDict payload inner) →
       payload !! py "priority" = None →
       headers call !! "Priority"%string = Some (py "3"))
  ∧ (∀ fields, is_json request = false → form request = Ok fields →
       fields !! py "priority" = None →
       headers call !! "Priority"%string = Some (py "3")).
Proof.
  intros Hread (inbound' & Hread' & _ & Hprio & _)%gotify_message_headers.
  rewrite Hread in Hread'. injection Hread' as <-.
  split; [exact Hprio|]. split; [apply band_cases|]. split.
  - intros payload inner Hct Hjson Hnone. etrans; [exact Hprio|].
    rewrite (read_body_json request payload inner Hct Hjson) in Hread.
    injection Hread as <-. cbn [priority_val]. by rewrite Hnone.
  - intros fields Hct Hform Hnone. etrans; [exact Hprio|].
    rewrite (read_body_form request fields Hct Hform) in Hread.
    injection Hread as <-. cbn [priority_val]. by rewrite Hnone.
Qed.

Lemma priority_header_witness :
  ∃ call,
    (gotify_message sample_config ntfy_accepts
       (json_request None payload_M_extras)).1 = [call]
    ∧ headers call !! "Priority"%string = Some (py "3").
Proof.
  assert (∃ call, (gotify_message sample_config ntfy_accepts
                     (json_request None payload_M_extras)).1 = [call])
    as [call Hc] by (eexists; vm_compute; reflexivity).
  exists call. split; [exact Hc|].
  destruct (priority_header sample_config ntfy_accepts
              (json_request None payload_M_extras)
              {| title := []; message := py "M"; priority_val := PyNone;
                 extras := Some {[ py "k" := PyInt 1 ]} |} call)
    as (_ & _ & Hjson & _); [by vm_compute|rewrite Hc; apply list_elem_of_here|].
  by apply (Hjson payload_M_extras []).
Defined.

(** X15. A title or message that Python takes for false counts as
    missing: when the "title" and the "message" of a JSON body are absent
    or null, false, 0, 0.0, "", [] or {}, the request is refused with 400
    and nothing is sent. *)
Theorem falsy_title_and_message (cfg : Config) (ntfy : PostCall → PostOutcome)
    (request : Request) (payload : gmap pystr pyval) (inner : pystr) :
  is_json request = true →
  json request = Ok (PyDict payload inner) →
  (∀ v, payload !! py "title" = Some v → py_bool v = false) →
  (∀ v, payload !! py "message" = Some v → py_bool v = false) →
  gotify_message cfg ntfy request
  = ([], Raise (HTTPException 400 (py "Missing title/message"))).
Proof.
  intros Hct Hjson Htitle Hmessage.
  rewrite gotify_message_unfold, (read_body_json request payload inner Hct Hjson).
  cbn [snd]. rewrite forward_unfold. cbn [title message].
  assert (Ht : str_or_empty (payload !! py "title") = []).
  { unfold str_or_empty. destruct (payload !! py "title") as [v|]; [|done].
    by rewrite (Htitle v eq_refl). }
  assert (Hm : str_or_empty (payload !! py "message") = []).
  { unfold str_or_empty. destruct (payload !! py "message") as [v|]; [|done].
    by rewrite (Hmessage v eq_refl). }
  by rewrite Ht, Hm.
Qed.

Lemma falsy_title_and_message_witness :
  gotify_message sample_config ntfy_accepts (json_request None payload_falsy)
  = ([], Raise (HTTPException 400 (py "Missing title/message"))).
Proof.
  apply (falsy_title_and_message sample_config ntfy_accepts
           (json_request None payload_falsy) payload_falsy []);
    [reflexivity|reflexivity|..].
  - intros v Hv. vm_compute in Hv. by injection Hv as <-.
  - intros v Hv. vm_compute in Hv. by injection Hv as <-.
Defined.

(** ** The echoed priority *)

Section EchoedPriority.

Lemma scan_digits_nonneg (s : pystr) (prev : bool) (acc : Z) (n : N)
    (v : Z) (digits : N) (rest : pystr) :
  scan_digits s prev acc n = Some (v, digits, rest) → 0 ≤ acc → 0 ≤ v.
Proof.
  revert prev acc n. induction s as [|c s IH]; intros prev acc n; cbn.
  - destruct prev; [discriminate|]. by intros [= <- _ _].
  - destruct ((48 <=? c)%N && (c <=? 57)%N).
    + intros H Hacc. apply IH in H; [done|lia].
    + destruct (c =? 95)%N.
      * destruct prev; [discriminate|]. apply IH.
      * destruct prev; [discriminate|]. by intros [= <- _ _].
Qed.

Lemma skip_spaces_head (s : pystr) (c : codepoint) :
  head (skip_spaces s) = Some c → c ∈ s.
Proof.
  induction s as [|a s IH]; cbn; [done|].
  destruct (Py_ISSPACE a).
  - intros H. right. by apply IH.
  - cbn. intros [= ->]. left.
Qed.

Lemma PyLong_FromString_cases (s : pystr) :
  PyLong_FromString s =
    let s1 := skip_spaces s in
    let '(negative, s2) :=
      match s1 with
      | [] => (false, [])
      | c :: r => if (c =? 43)%N then (false, r)
                  else if (c =? 45)%N then (true, r) else (false, s1)
      end in
    match s2 with
    | [] => None
    | c :: _ =>
        if (c =? 95)%N then None
        else match scan_digits s2 false 0 0%N with
             | None => None
             | Some (v, digits, rest) =>
                 if (digits =? 0)%N then None
                 else if ((0 <? int_max_str_digits)
                          && (int_max_str_digits <? digits))%N
                 then None
                 else match skip_spaces rest with
                      | [] => Some (if negative then - v else v)
                      | _ :: _ => None
                      end
             end
    end.
Proof.
  unfold PyLong_FromString. cbv zeta.
  assert (Hsign : ∀ s1 : pystr,
    match s1 with
    | 43%N :: r => (false, r)
    | 45%N :: r => (true, r)
    | _ => (false, s1)
    end
    = match s1 with
      | [] => (false, [])
      | c :: r => if (c =? 43)%N then (false, r)
                  else if (c =? 45)%N then (true, r) else (false, s1)
      end).
  { intros [|c r]; [done|].
    destruct (N.eqb_spec c 43) as [->|H43]; [done|].
    destruct (N.eqb_spec c 45) as [->|H45]; [done|].
    destruct c as [|p]; [done|].
    repeat first [done | destruct p as [p|p|]]. }
  rewrite Hsign. clear Hsign.
  assert (Hrest : ∀ (negative : bool) (s2 : pystr),
    match s2 with
    | 95%N :: _ => None
    | _ =>
        match scan_digits s2 false 0 0%N with
        | None => None
        | Some (v, digits, rest) =>
            if (digits =? 0)%N then None
            else if ((0 <? int_max_str_digits) && (int_max_str_digits <? digits))%N
            then None
            else match skip_spaces rest with
                 | [] => Some (if negative then - v else v)
                 | _ :: _ => None
                 end
        end
    end
    = match s2 with
      | [] => None
      | c :: _ =>
          if (c =? 95)%N then None
          else match scan_digits s2 false 0 0%N with
               | None => None
               | Some (v, digits, rest) =>
                   if (digits =? 0)%N then None
                   else if ((0 <? int_max_str_digits)
                            && (int_max_str_digits <? digits))%N
                   then None
                   else match skip_spaces rest with
                        | [] => Some (if negative then - v else v)
                        | _ :: _ => None
                        end
               end
      end).
  { intros negative [|c r]; [reflexivity|].
    destruct (N.eqb_spec c 95) as [->|H95]; [reflexivity|].
    destruct c as [|p]; [reflexivity|].
    repeat first [done | destruct p as [p|p|]]. }
  destruct (skip_spaces s) as [|c r]; [reflexivity|].
  destruct (c =? 43)%N; [exact (Hrest false r)|].
  destruct (c =? 45)%N; [exact (Hrest true r)|exact (Hrest false (c :: r))].
Qed.

Lemma PyLong_FromString_nonneg (s : pystr) (v : Z) :
  45%N ∉ s → PyLong_FromString s = Some v → 0 ≤ v.
Proof.
  intros Hminus. rewrite PyLong_FromString_cases. cbv zeta.
  assert (Hhead : head (skip_spaces s) ≠ Some 45%N)
    by (intros H; by apply skip_spaces_head in H).
  destruct (skip_spaces s) as [|c r] eqn:Hskip; [done|].
  assert (Hscan : ∀ s2 : pystr,
    match s2 with
    | [] => None
    | c0 :: _ =>
        if (c0 =? 95)%N then None
        else match scan_digits s2 false 0 0%N with
             | None => None
             | Some (v0, digits, rest) =>
                 if (digits =? 0)%N then None
                 else if ((0 <? int_max_str_digits)
                          && (int_max_str_digits <? digits))%N
                 then None
                 else match skip_spaces rest with
                      | [] => Some v0
                      | _ :: _ => None
                      end
             end
    end = Some v → 0 ≤ v).
  { intros [|c0 r0]; [done|]. destruct (c0 =? 95)%N; [done|].
    destruct (scan_digits (c0 :: r0) false 0 0%N) as [[[v0 digits] rest]|] eqn:Hs;
      [|done].
    apply scan_digits_nonneg in Hs; [|lia].
    repeat case_match; try discriminate. by intros [= <-]. }
  destruct (N.eqb_spec c 43) as [->|H43]; [exact (Hscan r)|].
  destruct (N.eqb_spec c 45) as [->|H45]; [by destruct Hhead|].
  exact (Hscan (c :: r)).
Qed.

Lemma transform_not_minus (c : codepoint) :
  Py_UNICODE_ISDIGIT c = true → transform_decimal_and_space c ≠ 45%N.
Proof.
  unfold transform_decimal_and_space. intros Hc.
  destruct (N.ltb_spec c 127).
  - by intros ->.
  - destruct (Py_UNICODE_ISSPACE c); [done|].
    destruct (Py_UNICODE_TODECIMAL c); [lia|done].
Qed.

(** A text of digits that [int] accepts is not negative. *)
Lemma int_of_str_nonneg (s : pystr) (v : Z) :
  isdigit s = true → int_of_str s = Some v → 0 ≤ v.
Proof.
  intros Hs. apply PyLong_FromString_nonneg.
  apply isdigit_all in Hs. rewrite forallb_forall in Hs.
  intros (c & Hc & Hin)%list_elem_of_fmap.
  apply list_elem_of_In, Hs in Hin. by apply transform_not_minus in Hin.
Qed.

End EchoedPriority.

(** X16. A 200 answer repeats the title and the message as they were
    parsed (without the prefix) with id 0 and appid 0, and its priority is
    never negative; when that priority is not 0, it is the very number
    the Priority header of the call was computed from. *)
Theorem response_echo (cfg : Config) (ntfy : PostCall → PostOutcome)
    (request : Request) (inbound : Inbound) (calls : list PostCall)
    (resp : GotifyResponse) :
  read_body request = ([], Ok inbound) →
  gotify_message cfg ntfy request = (calls, Ok resp) →
  resp_id resp = 0 ∧ resp_appid resp = 0
  ∧ resp_title resp = title inbound
  ∧ resp_message resp = message inbound
  ∧ 0 ≤ resp_priority resp
  ∧ (resp_priority resp ≠ 0 →
     ∀ call, call ∈ calls →
       headers call !! "Priority"%string
       = Some (gotify_priority_to_ntfy (PyInt (resp_priority resp)))).
Proof.
  intros Hread Hrun.
  pose proof Hrun as (inbound' & call & Hread' & _ & -> & Hin & _ & Hresp)%gotify_message_ok.
  rewrite Hread in Hread'. injection Hread' as <-.
  apply respond_ok in Hresp as (Hid & Happ & Ht & Hm & Hprio).
  unfold response_priority in Hprio.
  assert (Hecho : resp_priority resp = 0
                  ∨ (py_int (priority_val inbound) = Some (resp_priority resp)
                     ∧ 0 ≤ resp_priority resp)).
  { rewrite isdigit_py_str in Hprio.
    destruct (priority_val inbound) as [|b|z|x ds dp|s|items inner|d inner|text];
      cbn in Hprio; try (left; congruence).
    - destruct (Z.leb_spec 0 z); cbn in Hprio; injection Hprio as <-;
        [right; by split|by left].
    - destruct (isdigit s) eqn:Hs; [|left; cbn in Hprio; congruence].
      destruct (int_of_str s) as [n|] eqn:Hint; [|discriminate].
      right. cbn in Hprio. injection Hprio as <-. split; [done|].
      by eapply int_of_str_nonneg.
    - destruct (isdigit text); cbn in Hprio; [discriminate|left; congruence]. }
  repeat split; try done.
  - destruct Hecho as [->|[_ H]]; [done|exact H].
  - intros Hne call' Hcall'. destruct Hecho as [H|[Hint _]]; [done|].
    assert (Hcall : call' ∈ (gotify_message cfg ntfy request).1)
      by (by rewrite Hrun).
    apply gotify_message_headers in Hcall as (inbound' & Hread' & _ & Hp & _).
    rewrite Hread in Hread'. injection Hread' as <-.
    etrans; [exact Hp|]. unfold gotify_priority_to_ntfy. by rewrite Hint.
Qed.

Lemma response_echo_witness :
  ∃ call resp,
    gotify_message sample_config ntfy_accepts (form_request None fields_M_6)
    = ([call], Ok resp)
    ∧ resp_priority resp = 6 ∧ resp_title resp = []
    ∧ headers call !! "Priority"%string = Some (py "4").
Proof.
  assert (∃ call resp,
    gotify_message sample_config ntfy_accepts (form_request None fields_M_6)
    = ([call], Ok resp)) as (call & resp & Hrun)
    by (do 2 eexists; vm_compute; reflexivity).
  assert (H6 : resp_priority resp = 6).
  { pose proof Hrun as H. vm_compute in H. by injection H as _ <-. }
  exists call, resp. split; [exact Hrun|]. split; [exact H6|].
  destruct (response_echo sample_config ntfy_accepts
              (form_request None fields_M_6)
              {| title := []; message := py "M"; priority_val := PyStr (py "6");
                 extras := None |} _ _ ltac:(by vm_compute) Hrun)
    as (_ & _ & Ht & _ & _ & Hp).
  split; [exact Ht|].
  etrans; [apply Hp; [lia|apply list_elem_of_here]|]. by rewrite H6.
Defined.

(** X17. The answer is built after the message went out, and its [int]
    is not guarded: a priority whose text consists of digits that [int]
    does not take (a superscript digit) is published with Priority 3, and
    then the handler fails without an HTTP error of its own, although
    ntfy accepted the message. *)
Theorem unguarded_int_fails_after_publish (cfg : Config)
    (ntfy : PostCall → PostOutcome) (request : Request) (inbound : Inbound)
    (auth : gmap string pystr) (body : list byte) :
  read_body request = ([], Ok inbound) →
  message inbound ≠ [] ∨ title inbound ≠ [] →
  isdigit (py_str (priority_val inbound)) = true →
  py_int (priority_val inbound) = None →
  ntfy_auth_header cfg = Ok auth →
  encode_utf8 (match message inbound with
               | [] => title inbound
               | _ => message inbound
               end) = Some body →
  (∀ call, ∃ status text, ntfy call = Response status text ∧ status < 400) →
  ∃ call,
    gotify_message cfg ntfy request = ([call], Raise Unhandled)
    ∧ headers call !! "Priority"%string = Some (py "3").
Proof.
  intros Hread Hne Hdigit Hint Hauth Hbody Haccepts.
  rewrite (gotify_message_publishes cfg ntfy request inbound auth body
             Hread Hne Hauth Hbody).
  eexists. split.
  - f_equal. destruct (Haccepts (the_call cfg (resolve_topic cfg (query_token request))
                 (full_title cfg (title inbound))
                 (gotify_priority_to_ntfy (priority_val inbound))
                 (tags_of cfg (extras inbound)) auth body))
      as (status & text & -> & Hstatus).
    cbn [classify]. destruct (Z.leb_spec 400 status); [lia|].
    unfold respond, response_priority. by rewrite Hdigit, Hint.
  - cbn [headers the_call].
    rewrite lookup_union_r by (by eapply auth_header_keys).
    etrans; [apply own_headers_lookup|].
    unfold gotify_priority_to_ntfy. by rewrite Hint.
Qed.

Lemma unguarded_int_fails_after_publish_witness :
  ∃ call,
    gotify_message anonymous_config ntfy_accepts
      (form_request None fields_M_superscript) = ([call], Raise Unhandled)
    ∧ headers call !! "Priority"%string = Some (py "3").
Proof.
  apply (unguarded_int_fails_after_publish anonymous_config ntfy_accepts
           (form_request None fields_M_superscript)
           {| title := []; message := py "M"; priority_val := PyStr [0xb2%N];
              extras := None |} ∅ ["M"%byte]);
    try (by vm_compute); [by left|].
  intros call. exists 200, []. split; [reflexivity|lia].
Defined.

(** X18. Text that has no UTF-8 form (a lone surrogate, which JSON can
    carry) in the message, or in the title that stands in for an empty
    message, or in the credentials, makes the handler fail before the
    call: nothing is sent. *)
Theorem unencodable_text_sends_nothing (cfg : Config)
    (ntfy : PostCall → PostOutcome) (request : Request) (inbound : Inbound) :
  read_body request = ([], Ok inbound) →
  message inbound ≠ [] ∨ title inbound ≠ [] →
  encode_utf8 (match message inbound with
               | [] => title inbound
               | _ => message inbound
               end) = None
  ∨ (NTFY_USERNAME cfg ≠ []
     ∧ encode_utf8 (NTFY_USERNAME cfg ++ py ":" ++ NTFY_PASSWORD cfg) = None) →
  gotify_message cfg ntfy request = ([], Raise Unhandled).
Proof.
  intros Hread Hne Hbad.
  rewrite gotify_message_unfold, Hread. cbn [snd]. rewrite forward_unfold.
  assert (Hpub : publish_of cfg ntfy (resolve_topic cfg (query_token request)) inbound
                 = ([], Raise Unhandled)).
  { unfold publish_of. rewrite publish_to_ntfy_unfold.
    destruct Hbad as [Hbody|[Huser Hcred]].
    - rewrite Hbody. destruct (ntfy_auth_header cfg) as [auth|e] eqn:Hauth; [done|].
      by apply auth_header_raises in Hauth as ->.
    - unfold ntfy_auth_header. destruct (NTFY_USERNAME cfg); [done|].
      by rewrite Hcred. }
  rewrite Hpub. destruct (message inbound), (title inbound); try done.
  by destruct Hne.
Qed.

Lemma unencodable_text_sends_nothing_witness :
  gotify_message sample_config ntfy_accepts (json_request None payload_surrogate)
  = ([], Raise Unhandled).
Proof.
  apply (unencodable_text_sends_nothing sample_config ntfy_accepts
           (json_request None payload_surrogate)
           {| title := []; message := [0xd800%N]; priority_val := PyNone;
              extras := None |}); [by vm_compute|by left|by left].
Defined.

(** ** What a call carries *)

Section Base64.

Lemma b64_char_ascii (i : N) : (b64_char i < 128)%N.
Proof.
  unfold b64_char.
  assert (Hall : Forall (λ c, (c < 128)%N) b64_alphabet).
  { apply Forall_forall. intros c Hc%list_elem_of_In. vm_compute in Hc.
    repeat (destruct Hc as [<-|Hc]; [done|]). done. }
  rewrite Forall_forall in Hall. apply Hall, list_elem_of_In, nth_In.
  change (List.length b64_alphabet) with 64%nat.
  pose proof (N.mod_upper_bound i 64). lia.
Qed.

Lemma b64encode_ascii (bs : list byte) :
  Forall (λ c, (c < 128)%N) (b64encode bs).
Proof.
  assert (H : ∀ n (l : list byte), (length l ≤ n)%nat →
            Forall (λ c, (c < 128)%N) (b64encode l)).
  { induction n as [|n IH]; intros l Hl.
    - destruct l; [constructor|cbn in Hl; lia].
    - destruct l as [|a [|b [|c r]]]; cbn [b64encode app];
        repeat (constructor; [first [apply b64_char_ascii | done]|]);
        try (by constructor).
      apply IH. cbn in Hl. lia. }
  by apply (H (length bs)).
Qed.

End Base64.

(** X19. A call carries no header but Priority, Tags, Title and
    Authorization, of which Priority and Tags are always there; the
    Authorization value is "Basic " and base64 text, all of it ASCII. *)
Theorem call_headers (cfg : Config) (ntfy : PostCall → PostOutcome)
    (request : Request) (call : PostCall) :
  call ∈ (gotify_message cfg ntfy request).1 →
  (∀ name, is_Some (headers call !! name) →
     name ∈ ["Priority"; "Tags"; "Title"; "Authorization"]%string)
  ∧ is_Some (headers call !! "Priority"%string)
  ∧ is_Some (headers call !! "Tags"%string)
  ∧ (∀ value, headers call !! "Authorization"%string = Some value →
       take 6 value = py "Basic " ∧ Forall (λ c, (c < 128)%N) value).
Proof.
  intros Hcall.
  pose proof Hcall as (inbound & _ & _ & Hp & Ht & _)%gotify_message_headers.
  apply gotify_message_call_shape in Hcall
    as (inbound' & auth & body & _ & _ & Hauth & _ & -> & _).
  split; [|split; [by eexists|split; [by eexists|]]].
  - intros name [v Hv]. cbn [headers the_call] in Hv.
    destruct (decide (name = "Authorization"%string)) as [->|Hname];
      [set_solver|].
    rewrite lookup_union_r in Hv by (by eapply auth_header_keys).
    unfold own_headers in Hv.
    destruct (full_title cfg (title inbound'));
      repeat (rewrite lookup_insert in Hv; case_decide; [set_solver|]);
      by rewrite lookup_empty in Hv.
  - intros value Hv. cbn [headers the_call] in Hv.
    apply lookup_union_Some_raw in Hv as [Hv|[_ Hv]].
    + destruct (decide (NTFY_USERNAME cfg = [])) as [Hu|Hu].
      { rewrite ntfy_auth_header_anonymous in Hauth by done.
        injection Hauth as <-. by rewrite lookup_empty in Hv. }
      destruct (ntfy_auth_header_user cfg auth Hu Hauth) as (bytes & _ & ->).
      rewrite lookup_singleton_eq in Hv.
      assert (value = py "Basic " ++ b64encode bytes) as -> by congruence.
      split; [reflexivity|].
      apply Forall_app_2; [|apply b64encode_ascii].
      apply Forall_forall. intros c Hc%list_elem_of_In. vm_compute in Hc.
      repeat (destruct Hc as [<-|Hc]; [done|]). done.
    + pose proof (own_headers_lookup (full_title cfg (title inbound'))
                    (gotify_priority_to_ntfy (priority_val inbound'))
                    (tags_of cfg (extras inbound'))) as (_ & _ & _ & Hnone).
      pose proof (eq_trans (eq_sym Hv) Hnone). discriminate.
Qed.

(** X20. With a message, the body of the call is the UTF-8 text of the
    message alone; the title travels in the Title header only. *)
Theorem message_is_the_body (cfg : Config) (ntfy : PostCall → PostOutcome)
    (request : Request) (inbound : Inbound) (call : PostCall) :
  read_body request = ([], Ok inbound) →
  message inbound ≠ [] →
  call ∈ (gotify_message cfg ntfy request).1 →
  encode_utf8 (message inbound) = Some (data call).
Proof.
  intros Hread Hm (inbound' & Hread' & _ & _ & _ & _ & Hbody)%gotify_message_headers.
  rewrite Hread in Hread'. injection Hread' as <-.
  by destruct (message inbound).
Qed.

Lemma message_is_the_body_witness :
  ∃ call,
    (gotify_message sample_config ntfy_accepts
       (json_request None payload_TM8)).1 = [call]
    ∧ data call = ["M"%byte].
Proof.
  assert (∃ call, (gotify_message sample_config ntfy_accepts
                     (json_request None payload_TM8)).1 = [call])
    as [call Hc] by (eexists; vm_compute; reflexivity).
  exists call. split; [exact Hc|].
  pose proof (message_is_the_body sample_config ntfy_accepts
                (json_request None payload_TM8)
                {| title := py "T"; message := py "M"; priority_val := PyInt 8;
                   extras := None |} call ltac:(by vm_compute) ltac:(done)) as H.
  assert (Some ["M"%byte] = Some (data call)) as [= <-]; [|done].
  apply H. rewrite Hc. apply list_elem_of_here.
Defined.

Lemma at_most_one_call_witness :
  ∃ call,
    (gotify_message sample_config ntfy_unreachable
       (json_request None payload_TM8)).1 = [call]
    ∧ timeout call = 10.
Proof.
  assert (∃ call, call ∈ (gotify_message sample_config ntfy_unreachable
                            (json_request None payload_TM8)).1) as [call Hc]
    by (eexists; vm_compute; apply list_elem_of_here).
  exists call.
  exact (proj2 (at_most_one_call sample_config ntfy_unreachable
                  (json_request None payload_TM8)) call Hc).
Defined.

Lemma call_headers_witness :
  ∃ call value,
    (gotify_message sample_config ntfy_accepts
       (json_request None payload_TM8)).1 = [call]
    ∧ headers call !! "Authorization"%string = Some value
    ∧ take 6 value = py "Basic "
    ∧ Forall (λ c, (c < 128)%N) value.
Proof.
  assert (∃ call value,
    (gotify_message sample_config ntfy_accepts
       (json_request None payload_TM8)).1 = [call]
    ∧ headers call !! "Authorization"%string = Some value)
    as (call & value & Hc & Hv)
    by (do 2 eexists; split; vm_compute; reflexivity).
  exists call, value. split; [exact Hc|]. split; [exact Hv|].
  destruct (call_headers sample_config ntfy_accepts
              (json_request None payload_TM8) call) as (_ & _ & _ & Hauth);
    [rewrite Hc; apply list_elem_of_here|].
  exact (Hauth value Hv).
Defined.

(** ** Priorities sent as text *)

Section DecimalText.

Lemma scan_uint_acc (d : Decimal.uint) (acc : positive) (n : N) :
  scan_digits (py (NilEmpty.string_of_uint d)) false (Z.pos acc) n
  = Some (Z.pos (Pos.of_uint_acc d acc),
          (n + N.of_nat (length (py (NilEmpty.string_of_uint d))))%N, []).
Proof.
  revert acc n. induction d as [|d IH|d IH|d IH|d IH|d IH|d IH|d IH|d IH|d IH|d IH];
    intros acc n;
    [cbn; by rewrite N.add_0_r|..];
    cbn [NilEmpty.string_of_uint py list_ascii_of_string map scan_digits
         Pos.of_uint_acc length];
    change (map N_of_ascii (list_ascii_of_string (NilEmpty.string_of_uint d)))
      with (py (NilEmpty.string_of_uint d));
    match goal with
    | |- (if ?b then _ else _) = _ => change b with true; cbv iota
    end;
    match goal with
    | |- scan_digits _ false ?a _ = Some (Z.pos (Pos.of_uint_acc _ ?p), _, _) =>
        replace a with (Z.pos p) by (cbn; lia)
    end;
    rewrite IH; do 3 f_equal; lia.
Qed.

Lemma scan_uint (d : Decimal.uint) (n : N) :
  scan_digits (py (NilEmpty.string_of_uint d)) false 0 n
  = Some (Z.of_N (Pos.of_uint d),
          (n + N.of_nat (length (py (NilEmpty.string_of_uint d))))%N, []).
Proof.
  revert n. induction d as [|d IH|d IH|d IH|d IH|d IH|d IH|d IH|d IH|d IH|d IH];
    intros n;
    [cbn; by rewrite N.add_0_r|..];
    cbn [NilEmpty.string_of_uint py list_ascii_of_string map scan_digits
         Pos.of_uint length];
    change (map N_of_ascii (list_ascii_of_string (NilEmpty.string_of_uint d)))
      with (py (NilEmpty.string_of_uint d));
    match goal with
    | |- (if ?b then _ else _) = _ => change b with true; cbv iota
    end.
  1: { change (10 * 0 + Z.of_N (N_of_ascii "0" - 48)) with 0.
       rewrite IH. do 3 f_equal. lia. }
  all: match goal with
       | |- scan_digits _ false ?a _ = Some (Z.of_N (N.pos (Pos.of_uint_acc _ ?p)), _, _) =>
           change a with (Z.pos p)
       end; rewrite scan_uint_acc; cbn [Z.of_N]; do 3 f_equal; lia.
Qed.


Lemma digits_untransformed (d : Decimal.uint) :
  map transform_decimal_and_space (py (NilEmpty.string_of_uint d))
  = py (NilEmpty.string_of_uint d).
Proof. induction d; [done|..]; cbn; f_equal; exact IHd. Qed.

Lemma PyLong_of_digits (negative : bool) (c : codepoint) (r : pystr) (v : Z) :
  (48 ≤ c ≤ 57)%N →
  scan_digits (c :: r) false 0 0%N = Some (v, N.of_nat (length (c :: r)), []) →
  (length (c :: r) ≤ 4300)%nat →
  PyLong_FromString ((if negative then [45%N] else []) ++ c :: r)
  = Some (if negative then - v else v).
Proof.
  intros Hc Hscan Hlen. rewrite PyLong_FromString_cases. cbv zeta.
  assert (Hspace : Py_ISSPACE c = false).
  { unfold Py_ISSPACE.
    destruct (N.leb_spec 9 c), (N.leb_spec c 13), (N.eqb_spec c 32);
      try reflexivity; lia. }
  assert (H43 : (c =? 43)%N = false) by (apply N.eqb_neq; lia).
  assert (H45 : (c =? 45)%N = false) by (apply N.eqb_neq; lia).
  assert (H95 : (c =? 95)%N = false) by (apply N.eqb_neq; lia).
  assert (Hzero : (N.of_nat (length (c :: r)) =? 0)%N = false)
    by (apply N.eqb_neq; cbn [length]; lia).
  assert (Hmax : ((0 <? int_max_str_digits)
                  && (int_max_str_digits <? N.of_nat (length (c :: r))))%N = false).
  { apply andb_false_iff. right. apply N.ltb_ge. unfold int_max_str_digits. lia. }
  destruct negative; cbn [app skip_spaces].
  - change (Py_ISSPACE 45%N) with false. cbv iota.
    change (45 =? 43)%N with false. change (45 =? 45)%N with true. cbv iota.
    by rewrite H95, Hscan, Hzero, Hmax.
  - rewrite Hspace, H43, H45. cbv iota. by rewrite H95, Hscan, Hzero, Hmax.
Qed.

Lemma uint_text_cons (d : Decimal.uint) :
  d ≠ Decimal.Nil →
  NilZero.string_of_uint d = NilEmpty.string_of_uint d
  ∧ ∃ c r, py (NilEmpty.string_of_uint d) = c :: r ∧ (48 ≤ c ≤ 57)%N.
Proof.
  destruct d; [done|..]; intros _; (split; [reflexivity|]);
    eexists _, _; (split; [reflexivity|]); cbn; lia.
Qed.

(** [int(str(z))] is [z], as long as [str(z)] stays within the limit of
    [int_max_str_digits]. *)
Lemma int_of_str_of_int (z : Z) :
  (length (str_of_int z) ≤ 4300)%nat → int_of_str (str_of_int z) = Some z.
Proof.
  destruct z as [|p|p]; [reflexivity|..];
    unfold str_of_int, int_of_str;
    cbn [Z.to_int NilZero.string_of_int];
    pose proof (DecimalPos.Unsigned.of_to p) as Hp;
    pose proof (scan_uint (Pos.to_uint p) 0) as Hscan;
    rewrite Hp, N.add_0_l in Hscan; cbn [Z.of_N] in Hscan;
    (assert (Hd : Pos.to_uint p ≠ Decimal.Nil)
       by (intros Hnil; by rewrite Hnil in Hp));
    destruct (uint_text_cons _ Hd) as (Hzero & c & r & Heq & Hc).
  - rewrite Hzero, digits_untransformed, Heq in *. intros Hlen.
    exact (PyLong_of_digits false c r (Z.pos p) Hc Hscan Hlen).
  - change (py (String "-" ?s)) with (45%N :: py s).
    rewrite Hzero. cbn [map]. rewrite digits_untransformed, Heq in *.
    change (transform_decimal_and_space 45%N) with 45%N. intros Hlen.
    apply (PyLong_of_digits true c r (Z.pos p) Hc Hscan).
    cbn [length] in Hlen |- *. lia.
Qed.

(** X21. A priority sent as the decimal text of a number, as every form
    field is, is banded like the number itself; in the answer a number
    z ≥ 0 comes back as z and a negative one as 0. *)
Theorem decimal_text_priority (z : Z) :
  (length (str_of_int z) ≤ 4300)%nat →
  py_int (PyStr (str_of_int z)) = Some z
  ∧ gotify_priority_to_ntfy (PyStr (str_of_int z))
    = gotify_priority_to_ntfy (PyInt z)
  ∧ response_priority (PyStr (str_of_int z)) = ret (if 0 <=? z then z else 0).
Proof.
  intros Hlen. pose proof (int_of_str_of_int z Hlen) as Hint.
  split; [exact Hint|]. split.
  - unfold gotify_priority_to_ntfy. cbn [py_int]. by rewrite Hint.
  - unfold response_priority. cbn [py_str py_int].
    rewrite isdigit_str_of_int, Hint. by destruct (0 <=? z).
Qed.

Lemma decimal_text_priority_witness :
  gotify_priority_to_ntfy (PyStr (py "8")) = py "5"
  ∧ gotify_priority_to_ntfy (PyStr (py "-5")) = py "1"
  ∧ response_priority (PyStr (py "-5")) = ret 0.
Proof.
  destruct (decimal_text_priority 8) as (_ & H8 & _); [cbn; lia|].
  destruct (decimal_text_priority (-5)) as (_ & H5 & Hr); [cbn; lia|].
  split; [exact H8|]. split; [exact H5|exact Hr].
Defined.

End DecimalText.
